(** * Verification of [tools/generate_conda_file.py]

    The script merges module-level package tables (Python dicts, which
    iterate in insertion order) according to the host platform and the
    [--gpu] flag, and writes a conda manifest.  Dicts are modelled as
    association lists, since the order of the entries decides the order
    of the rendered lines.  The module-level dicts live in a store
    addressed by their names, so that the aliases [conda_packages] and
    [pip_packages] and the in-place [update] calls are visible. *)

From Stdlib Require Import String Ascii List Bool Arith Lia.
Import ListNotations.
Open Scope string_scope.

(** ** Characters that cannot be typed inside a string literal *)

Definition nl : string := String "010"%char EmptyString.
Definition dquote : string := String "034"%char EmptyString.

(** ** Python dicts: insertion-ordered tables *)

Module Dict.

Definition t := list (string * string).

Definition keys (d : t) : list string := map fst d.
Definition values (d : t) : list string := map snd d.

Fixpoint get (d : t) (k : string) : option string :=
  match d with
  | [] => None
  | (k', v) :: r => if String.eqb k k' then Some v else get r k
  end.

Definition mem (k : string) (d : t) : bool :=
  match get d k with Some _ => true | None => false end.

(** [d[k] = v]: an existing key keeps its position, a new key goes last. *)
Fixpoint setitem (d : t) (k v : string) : t :=
  match d with
  | [] => [(k, v)]
  | (k', v') :: r =>
      if String.eqb k k' then (k', v) :: r else (k', v') :: setitem r k v
  end.

(** [d.update(o)]: the entries of [o] are assigned one by one, in [o]'s
    order. *)
Definition update (d o : t) : t :=
  fold_left (fun acc kv => setitem acc (fst kv) (snd kv)) o d.

(** A Python dict holds each key once. *)
Definition wf (d : t) : Prop := NoDup (keys d).

Fixpoint wfb (d : t) : bool :=
  match d with
  | [] => true
  | (k, _) :: r => negb (mem k r) && wfb r
  end.

(** The keys of [o] that [d] does not have, in [o]'s order. *)
Definition fresh_keys (d o : t) : list string :=
  filter (fun k => negb (mem k d)) (keys o).

(** The value the last entry of [o] with key [k] carries: what
    [update d o] assigns to [k]. *)
Fixpoint get_last (o : t) (k : string) : option string :=
  match o with
  | [] => None
  | (k', v) :: r =>
      match get_last r k with
      | Some v' => Some v'
      | None => if String.eqb k k' then Some v else None
      end
  end.

End Dict.

Definition dict : Type := Dict.t.

(** ** String formatting and splitting *)

(** A format string with a single argument: literal text and replacement
    fields ([{}] or [{conda_env}]), every field receiving that argument. *)
Inductive piece : Type :=
| Lit (s : string)
| Field.

Definition template := list piece.

Fixpoint format (t : template) (arg : string) : string :=
  match t with
  | [] => EmptyString
  | Lit s :: r => s ++ format r arg
  | Field :: r => arg ++ format r arg
  end.

(** [s.split(sep)] for a separator of one character. *)
Fixpoint split (sep : ascii) (s : string) : list string :=
  match s with
  | EmptyString => [EmptyString]
  | String c r =>
      if Ascii.eqb c sep then EmptyString :: split sep r
      else match split sep r with
           | [] => [String c EmptyString]
           | h :: t => String c h :: t
           end
  end.

(** The text a sequence of [write] calls leaves in a file. *)
Fixpoint cat (l : list string) : string :=
  match l with
  | [] => EmptyString
  | x :: r => x ++ cat r
  end.

Definition newline : ascii := "010"%char.

(** ** Module-level constants *)

(** The backslash at the end of the [ipykernel] line continues the line:
    the install command and its [--display-name] option are one line. *)
Definition HELP_MSG : template :=
  [ Lit nl;
    Lit "To create the conda environment:"; Lit nl;
    Lit "$ conda env create -f "; Field; Lit ".yaml"; Lit nl;
    Lit nl;
    Lit "To update the conda environment:"; Lit nl;
    Lit "$ conda env update -f "; Field; Lit ".yaml"; Lit nl;
    Lit nl;
    Lit "To register the conda environment in Jupyter:"; Lit nl;
    Lit "$ conda activate "; Field; Lit nl;
    Lit "$ python -m ipykernel install --user --name "; Field; Lit " ";
    Lit "--display-name "; Lit dquote; Lit "Python ("; Field; Lit ")";
    Lit dquote; Lit nl ].

Definition CHANNELS : list string := ["defaults"; "conda-forge"; "pytorch"].

(** The names of the module-level dicts.  A name denotes the dict object
    itself: two variables bound to the same name are aliases. *)
Inductive gname : Type :=
| CONDA_BASE | CONDA_GPU
| PIP_BASE | PIP_GPU
| PIP_DARWIN | PIP_DARWIN_GPU
| PIP_LINUX | PIP_LINUX_GPU | CONDA_LINUX
| PIP_WIN32 | PIP_WIN32_GPU | CONDA_WIN32.

Definition gname_eqb (a b : gname) : bool :=
  match a, b with
  | CONDA_BASE, CONDA_BASE | CONDA_GPU, CONDA_GPU
  | PIP_BASE, PIP_BASE | PIP_GPU, PIP_GPU
  | PIP_DARWIN, PIP_DARWIN | PIP_DARWIN_GPU, PIP_DARWIN_GPU
  | PIP_LINUX, PIP_LINUX | PIP_LINUX_GPU, PIP_LINUX_GPU
  | CONDA_LINUX, CONDA_LINUX
  | PIP_WIN32, PIP_WIN32 | PIP_WIN32_GPU, PIP_WIN32_GPU
  | CONDA_WIN32, CONDA_WIN32 => true
  | _, _ => false
  end.

(** The dict literals, as they are when the module has just been loaded. *)
Definition module_dicts (g : gname) : dict :=
  match g with
  | CONDA_BASE =>
      [ ("python", "python==3.6.8");
        ("pip", "pip>=19.1.1");
        ("ipykernel", "ipykernel>=4.6.1");
        ("jupyter", "jupyter>=1.0.0");
        ("matplotlib", "matplotlib>=2.2.2");
        ("numpy", "numpy>=1.13.3");
        ("pandas", "pandas>=0.24.2");
        ("pytest", "pytest>=3.6.4");
        ("pytorch", "pytorch-cpu>=1.0.0");
        ("scipy", "scipy>=1.0.0");
        ("tensorflow", "tensorflow==1.12.0");
        ("h5py", "h5py>=2.8.0");
        ("tensorflow-hub", "tensorflow-hub==0.5.0");
        ("py-xgboost", "py-xgboost<=0.80") ]
  | CONDA_GPU =>
      [ ("numba", "numba>=0.38.1");
        ("pytorch", "pytorch>=1.0.0");
        ("tensorflow", "tensorflow-gpu==1.12.0") ]
  | PIP_BASE =>
      [ ("allennlp", "allennlp==0.8.4");
        ("azureml-sdk[automl]", "azureml-sdk[automl]==1.0.48");
        ("azureml-train-automl", "azureml-train-automl==1.0.48");
        ("azureml-dataprep", "azureml-dataprep==1.1.8");
        ("azureml-widgets", "azureml-widgets==1.0.48");
        ("azureml-mlflow", "azureml-mlflow>=1.0.43.1");
        ("black", "black>=18.6b4");
        ("cached-property", "cached-property==1.5.1");
        ("dask", "dask[dataframe]==1.2.2");
        ("papermill", "papermill>=1.0.1");
        ("nteract-scrapbook", "nteract-scrapbook>=0.2.1");
        ("pydocumentdb", "pydocumentdb>=2.3.3");
        ("tqdm", "tqdm==4.31.1");
        ("pyemd", "pyemd==0.5.1");
        ("ipywebrtc", "ipywebrtc==0.4.3");
        ("pre-commit", "pre-commit>=1.14.4");
        ("scikit-learn", "scikit-learn>=0.19.0,<=0.20.3");
        ("setuptools_scm", "setuptools_scm==3.2.");
        ("sklearn-crfsuite", "sklearn-crfsuite>=0.3.6");
        ("spacy", "spacy>=2.1.4");
        ("spacy-models",
          "https://github.com/explosion/spacy-models/releases/download/"
          ++ "en_core_web_sm-2.1.0/en_core_web_sm-2.1.0.tar.gz");
        ("gensim", "gensim>=3.7.0");
        ("nltk", "nltk>=3.4");
        ("pytorch-pretrained-bert", "pytorch-pretrained-bert>=0.6");
        ("seqeval", "seqeval>=0.0.12") ]
  | PIP_GPU => []
  | PIP_DARWIN => []
  | PIP_DARWIN_GPU => [ ("horovod", "horovod>=0.16.1") ]
  | PIP_LINUX => []
  | PIP_LINUX_GPU => [ ("horovod", "horovod>=0.16.1") ]
  | CONDA_LINUX => [ ("cudatoolkit", "cudatoolkit>=9.2") ]
  | PIP_WIN32 => []
  | PIP_WIN32_GPU => []
  | CONDA_WIN32 => [ ("pytorch", "pytorch==1.0.0"); ("cudatoolkit", "cuda90") ]
  end.

(** ** The world the script runs in *)

(** What the script cannot see of the machine it runs on.  [locate] gives
    the file a path denotes when the path can be opened for writing (two
    paths may denote one file, as [./x] and [x] do) and nothing when it
    cannot (a missing directory, a name too long, a directory in the way).
    [encodable] tells the text the encoding of a file accepts, [printable]
    the text the encoding of the terminal accepts.  Device errors while
    writing, such as a full disk, are outside the model. *)
Record host : Type := mkHost {
  locate : string -> option string;
  encodable : string -> bool;
  printable : string -> bool
}.

(** The module-level dicts, the files by the identity [locate] gives them,
    what has been printed, and the host. *)
Record world : Type := mkWorld {
  globals : gname -> dict;
  files : list (string * string);
  stdout : list string;
  os : host
}.

Inductive exn : Type :=
| Exception (msg : string)
| OSError (path : string)
| UnicodeEncodeError (text : string).

Inductive result (A : Type) : Type :=
| Ok (a : A)
| Raise (e : exn).

Arguments Ok {A} a.
Arguments Raise {A} e.

(** Statements: state passing over [world], an exception stops the run and
    leaves the world as it was when raised. *)
Definition M (A : Type) : Type := world -> result A * world.

Definition ret {A : Type} (a : A) : M A := fun w => (Ok a, w).

Definition bind {A B : Type} (c : M A) (k : A -> M B) : M B :=
  fun w =>
    match c w with
    | (Ok a, w') => k a w'
    | (Raise e, w') => (Raise e, w')
    end.

Definition raise {A : Type} (e : exn) : M A := fun w => (Raise e, w).

Notation "x <- c1 ;; c2" := (bind c1 (fun x => c2))
  (at level 61, c1 at next level, right associativity).
Notation "c1 ;; c2" := (bind c1 (fun _ => c2))
  (at level 61, right associativity).

Fixpoint for_ {A : Type} (l : list A) (body : A -> M unit) : M unit :=
  match l with
  | [] => ret tt
  | x :: r => body x ;; for_ r body
  end.

(** [a.update(b)] on two module-level dicts: the object named [a] is
    changed in place. *)
Definition update (a b : gname) : M unit :=
  fun w =>
    (Ok tt,
     mkWorld
       (fun g => if gname_eqb g a
                 then Dict.update (globals w a) (globals w b)
                 else globals w g)
       (files w) (stdout w) (os w)).

(** [list(a.values())] *)
Definition values (a : gname) : M (list string) :=
  fun w => (Ok (Dict.values (globals w a)), w).

Definition content (fs : list (string * string)) (path : string) : string :=
  match Dict.get fs path with
  | Some c => c
  | None => EmptyString
  end.

(** [open(path, "w")]: when the path can be opened, the file it denotes is
    created, or emptied when it exists, and the handle stands for that
    file; otherwise the call raises and nothing is touched. *)
Definition open_w (path : string) : M string :=
  fun w =>
    match locate (os w) path with
    | Some id =>
        (Ok id,
         mkWorld (globals w) (Dict.setitem (files w) id EmptyString)
                 (stdout w) (os w))
    | None => (Raise (OSError path), w)
    end.

(** [f.write(s)]: the text is encoded as a whole; when the encoding rejects
    it nothing of it is written and the call raises.  What was written
    before stays in the file, which the [with] block closes. *)
Definition write (f s : string) : M unit :=
  fun w =>
    if encodable (os w) s
    then (Ok tt,
          mkWorld (globals w)
                  (Dict.setitem (files w) f (content (files w) f ++ s))
                  (stdout w) (os w))
    else (Raise (UnicodeEncodeError s), w).

(** [print(s)]: likewise for the terminal. *)
Definition print (s : string) : M unit :=
  fun w =>
    if printable (os w) s
    then (Ok tt, mkWorld (globals w) (files w) (stdout w ++ [s]) (os w))
    else (Raise (UnicodeEncodeError s), w).

(** ** The script *)

(** What [parser.parse_args()] returns. *)
Record Namespace : Type := mkArgs {
  name : option string;
  gpu : bool
}.

Definition main (args : Namespace) (platform : string) : M unit :=
  (* set name for environment and output yaml file *)
  let conda_env := "nlp_cpu" in
  let conda_env := if gpu args then "nlp_gpu" else conda_env in
  (* overwrite environment name with user input *)
  let conda_env :=
    match name args with Some n => n | None => conda_env end in
  (* update conda and pip packages based on flags provided *)
  let conda_packages := CONDA_BASE in
  let pip_packages := PIP_BASE in
  (* check for os platform support *)
  (if String.eqb platform "darwin" then
     update pip_packages PIP_DARWIN ;;
     update PIP_GPU PIP_DARWIN_GPU
   else if String.prefix "linux" platform then
     update conda_packages CONDA_LINUX ;;
     update pip_packages PIP_LINUX ;;
     update PIP_GPU PIP_LINUX_GPU
   else if String.eqb platform "win32" then
     update conda_packages CONDA_WIN32 ;;
     update pip_packages PIP_WIN32 ;;
     update PIP_GPU PIP_WIN32_GPU
   else
     raise (Exception
              "Unsupported platform. Must be Windows, Linux, or macOS")) ;;
  (if gpu args then
     update conda_packages CONDA_GPU ;;
     update pip_packages PIP_GPU
   else ret tt) ;;
  (* write out yaml file *)
  let conda_file := format [Field; Lit ".yaml"] conda_env in
  f <- open_w conda_file ;;
  for_ (split newline (format HELP_MSG conda_env))
       (fun line => write f (format [Lit "# "; Field; Lit nl] line)) ;;
  write f (format [Lit "name: "; Field; Lit nl] conda_env) ;;
  write f ("channels:" ++ nl) ;;
  for_ CHANNELS
       (fun channel => write f (format [Lit "- "; Field; Lit nl] channel)) ;;
  write f ("dependencies:" ++ nl) ;;
  conda_values <- values conda_packages ;;
  for_ conda_values
       (fun conda_package =>
          write f (format [Lit "- "; Field; Lit nl] conda_package)) ;;
  write f ("- pip:" ++ nl) ;;
  pip_values <- values pip_packages ;;
  for_ pip_values
       (fun pip_package =>
          write f (format [Lit "  - "; Field; Lit nl] pip_package)) ;;
  print (format [Lit "Generated conda file: "; Field] conda_file) ;;
  print (format HELP_MSG conda_env).

(** A host for the examples: a working directory without subdirectories,
    where a path opens when, leading [./] dropped, it is a file name
    without [/] of at most 255 bytes; files take ASCII text only; the
    terminal prints anything. *)
Fixpoint drop_dot_slash (p : string) : string :=
  match p with
  | String "."%char (String "/"%char r) => drop_dot_slash r
  | _ => p
  end.

Fixpoint occurrences (c : ascii) (s : string) : nat :=
  match s with
  | EmptyString => 0
  | String c' r => (if Ascii.eqb c' c then 1 else 0) + occurrences c r
  end.

Fixpoint all_ascii (s : string) : bool :=
  match s with
  | EmptyString => true
  | String (Ascii _ _ _ _ _ _ _ b7) r => negb b7 && all_ascii r
  end.

Definition flat_ascii_host : host :=
  mkHost
    (fun path =>
       let p := drop_dot_slash path in
       if (occurrences "/"%char p =? 0)%nat
          && (1 <=? String.length p)%nat
          && (String.length p <=? 255)%nat
       then Some p else None)
    all_ascii
    (fun _ => true).

(** The world of a process that has just loaded the module, in an empty
    working directory of that host. *)
Definition fresh : world := mkWorld module_dicts [] [] flat_ascii_host.

(** ** Vocabulary of the specification *)

Definition UnsupportedPlatformError : exn :=
  Exception "Unsupported platform. Must be Windows, Linux, or macOS".

(** The three platform families, and how [sys.platform] selects one: the
    tests of the [if]/[elif] chain, in its order. *)
Inductive family : Type :=
| Darwin | Linux | Windows.

Definition family_of (platform : string) : option family :=
  if String.eqb platform "darwin" then Some Darwin
  else if String.prefix "linux" platform then Some Linux
  else if String.eqb platform "win32" then Some Windows
  else None.

Definition platform_supported (platform : string) : bool :=
  String.eqb platform "darwin"
  || String.prefix "linux" platform
  || String.eqb platform "win32".

(** The environment name the run settles on. *)
Definition resolved_name (args : Namespace) : string :=
  match name args with
  | Some n => n
  | None => if gpu args then "nlp_gpu" else "nlp_cpu"
  end.

Definition extension : string := ".yaml".

(** The dicts each branch merges, by table. *)
Definition conda_platform_overlay (f : family) : option gname :=
  match f with
  | Darwin => None
  | Linux => Some CONDA_LINUX
  | Windows => Some CONDA_WIN32
  end.

Definition pip_platform_overlay (f : family) : gname :=
  match f with
  | Darwin => PIP_DARWIN
  | Linux => PIP_LINUX
  | Windows => PIP_WIN32
  end.

Definition pip_gpu_platform_overlay (f : family) : gname :=
  match f with
  | Darwin => PIP_DARWIN_GPU
  | Linux => PIP_LINUX_GPU
  | Windows => PIP_WIN32_GPU
  end.

(** The overlays merged into the interpreter-level table, in the order of
    the [update] calls. *)
Definition conda_overlays (f : family) (accel : bool) : list gname :=
  match conda_platform_overlay f with Some o => [o] | None => [] end
  ++ (if accel then [CONDA_GPU] else []).

(** The three dicts a run changes, as they are when it ends, from the
    dicts [g] it started with. *)
Definition merged_conda (f : family) (accel : bool) (g : gname -> dict)
  : dict :=
  fold_left Dict.update (map g (conda_overlays f accel)) (g CONDA_BASE).

Definition merged_pip_gpu (f : family) (g : gname -> dict) : dict :=
  Dict.update (g PIP_GPU) (g (pip_gpu_platform_overlay f)).

Definition merged_pip (f : family) (accel : bool) (g : gname -> dict)
  : dict :=
  let p := Dict.update (g PIP_BASE) (g (pip_platform_overlay f)) in
  if accel then Dict.update p (merged_pip_gpu f g) else p.

Definition merged_globals (f : family) (accel : bool) (g : gname -> dict)
  : gname -> dict :=
  fun x =>
    match x with
    | CONDA_BASE => merged_conda f accel g
    | PIP_BASE => merged_pip f accel g
    | PIP_GPU => merged_pip_gpu f g
    | _ => g x
    end.

(** The layout of the manifest, in the words of the specification: the
    commented usage instructions, the name field, the channel list, the
    dependency list and the nested pip list. *)
Definition usage_lines (env : string) : list string :=
  split newline (format HELP_MSG env).

Definition manifest_layout (env : string) (conda_specs pip_specs : list string)
  : string :=
  cat (map (fun l => "# " ++ l ++ nl) (usage_lines env))
  ++ ("name: " ++ env ++ nl)
  ++ ("channels:" ++ nl)
  ++ ("- defaults" ++ nl) ++ ("- conda-forge" ++ nl) ++ ("- pytorch" ++ nl)
  ++ ("dependencies:" ++ nl)
  ++ cat (map (fun s => "- " ++ s ++ nl) conda_specs)
  ++ ("- pip:" ++ nl)
  ++ cat (map (fun s => "  - " ++ s ++ nl) pip_specs).

(** The manifest a run writes, and the lines it prints. *)
Definition manifest (args : Namespace) (f : family) (g : gname -> dict)
  : string :=
  manifest_layout (resolved_name args)
                  (Dict.values (merged_conda f (gpu args) g))
                  (Dict.values (merged_pip f (gpu args) g)).

Definition output_name (args : Namespace) : string :=
  resolved_name args ++ extension.

Definition printed (args : Namespace) : list string :=
  [ "Generated conda file: " ++ output_name args;
    format HELP_MSG (resolved_name args) ].

(** Every dict of the store holds each key once. *)
Definition globals_wf (g : gname -> dict) : Prop :=
  forall x, Dict.wf (g x).

(** The dicts are as they are when the module has just been loaded. *)
Definition loaded (w : world) : Prop :=
  forall x, globals w x = module_dicts x.

(** The content of the file a path denotes. *)
Definition read_file (w : world) (path : string) : option string :=
  match locate (os w) path with
  | Some id => Dict.get (files w) id
  | None => None
  end.

(** ** The write calls of a run *)

(** A sequence of [write] calls on one handle. *)
Definition emit (f : string) (chunks : list string) : M unit :=
  for_ chunks (write f).

(** The texts of a sequence that are written before the first one the
    encoding rejects, and that one. *)
Fixpoint take_good (enc : string -> bool) (chunks : list string)
  : list string :=
  match chunks with
  | [] => []
  | c :: r => if enc c then c :: take_good enc r else []
  end.

Fixpoint first_bad (enc : string -> bool) (chunks : list string)
  : option string :=
  match chunks with
  | [] => None
  | c :: r => if enc c then first_bad enc r else Some c
  end.

(** The texts the script writes, one for each [write] call, in order. *)
Definition manifest_chunks (env : string)
           (conda_specs pip_specs : list string) : list string :=
  let line (pre s : string) : string := pre ++ s ++ nl in
  (map (line "# ") (usage_lines env)
   ++ [ line "name: " env; line "channels:" "" ]
   ++ map (line "- ") CHANNELS
   ++ [ line "dependencies:" "" ]
   ++ map (line "- ") conda_specs
   ++ [ line "- pip:" "" ]
   ++ map (line "  - ") pip_specs)%list.

(** How a run on a supported platform ends, the tables being merged into
    [G]: it stops at [open], at the first [write] or [print] the host
    rejects, or at the end. *)
Definition finish (env : string) (G : gname -> dict) (w : world)
  : result unit * world :=
  let path := env ++ ".yaml" in
  match locate (os w) path with
  | None => (Raise (OSError path), mkWorld G (files w) (stdout w) (os w))
  | Some id =>
      let chunks := manifest_chunks env (Dict.values (G CONDA_BASE))
                                    (Dict.values (G PIP_BASE)) in
      let fs := Dict.setitem (files w) id
                             (cat (take_good (encodable (os w)) chunks)) in
      match first_bad (encodable (os w)) chunks with
      | Some c => (Raise (UnicodeEncodeError c),
                   mkWorld G fs (stdout w) (os w))
      | None =>
          let l1 := "Generated conda file: " ++ path in
          let l2 := format HELP_MSG env in
          if printable (os w) l1 then
            if printable (os w) l2
            then (Ok tt, mkWorld G fs (stdout w ++ [l1; l2]) (os w))
            else (Raise (UnicodeEncodeError l2),
                  mkWorld G fs (stdout w ++ [l1]) (os w))
          else (Raise (UnicodeEncodeError l1), mkWorld G fs (stdout w) (os w))
      end
  end.

(** The run can complete: the platform is supported, the output path opens
    and the host accepts every text written and printed. *)
Definition can_complete (args : Namespace) (platform : string) (w : world)
  : bool :=
  match family_of platform with
  | None => false
  | Some f =>
      let env := resolved_name args in
      match locate (os w) (env ++ ".yaml") with
      | None => false
      | Some _ =>
          forallb (encodable (os w))
                  (manifest_chunks
                     env
                     (Dict.values (merged_conda f (gpu args) (globals w)))
                     (Dict.values (merged_pip f (gpu args) (globals w))))
          && printable (os w) ("Generated conda file: " ++ env ++ ".yaml")
          && printable (os w) (format HELP_MSG env)
      end
  end.

(** The overlays a run merges into a table, in the order of the [update]
    calls: the platform overlay, then the accelerator overlay. *)
Definition merged_into (f : family) (accel : bool) (b : gname) : list gname :=
  match b with
  | CONDA_BASE => conda_overlays f accel
  | PIP_BASE => pip_platform_overlay f :: (if accel then [PIP_GPU] else [])
  | PIP_GPU => [pip_gpu_platform_overlay f]
  | _ => []
  end.

(** The keys a chain of merges appends to [d], in the order they are
    appended. *)
Fixpoint fresh_all (d : dict) (os : list dict) : list string :=
  match os with
  | [] => []
  | o :: r => Dict.fresh_keys d o ++ fresh_all (Dict.update d o) r
  end.

(** The value the last overlay of a chain that has the key carries. *)
Fixpoint chain_get (os : list dict) (k : string) : option string :=
  match os with
  | [] => None
  | o :: r =>
      match chain_get r k with
      | Some v => Some v
      | None => Dict.get o k
      end
  end.


(** ** Four statements of the specification, as it words them *)


(** Merge override, for every overlay merged during the run: a key that
    the table and the overlay share is rendered with the overlay's
    value. *)
Definition overlay_value_rendered
           (args : Namespace) (platform : string) (w : world) : Prop :=
  forall f w' b o k v0 v,
    family_of platform = Some f ->
    main args platform w = (Ok tt, w') ->
    (b = CONDA_BASE \/ b = PIP_BASE) ->
    In o (merged_into f (gpu args) b) ->
    Dict.get (globals w b) k = Some v0 ->
    Dict.get (globals w' o) k = Some v ->
    Dict.get (globals w' b) k = Some v.

(** Without the accelerator, only a Linux run merges platform entries into
    the interpreter-level table; a mac or Windows run leaves it as it
    was. *)
Definition only_linux_merges_conda (w : world) : Prop :=
  forall n platform f w',
    family_of platform = Some f ->
    main (mkArgs n false) platform w = (Ok tt, w') ->
    match f with
    | Linux => globals w' CONDA_BASE <> globals w CONDA_BASE
    | Darwin | Windows => globals w' CONDA_BASE = globals w CONDA_BASE
    end.

(** The Linux example: without the accelerator no horovod entry, an entry
    of the Linux overlay present and the GPU-toolkit key absent; with it,
    the accelerator overlay's entries and the horovod entry. *)
Definition linux_example (w : world) : Prop :=
  (forall n w',
     main (mkArgs n false) "linux" w = (Ok tt, w') ->
     Dict.get (globals w' PIP_BASE) "horovod" = None /\
     (exists k v, In (k, v) (globals w CONDA_LINUX) /\
                  Dict.get (globals w' CONDA_BASE) k = Some v) /\
     Dict.get (globals w' CONDA_BASE) "cudatoolkit" = None)
  /\
  (forall n w',
     main (mkArgs n true) "linux" w = (Ok tt, w') ->
     (forall k v, In (k, v) (globals w CONDA_GPU) ->
                  Dict.get (globals w' CONDA_BASE) k = Some v) /\
     Dict.get (globals w' PIP_BASE) "horovod" = Some "horovod>=0.16.1").


(** ** Vocabulary for the further properties *)

(** The dicts that hold accelerator packages. *)
Definition accelerator_table (x : gname) : bool :=
  match x with
  | CONDA_GPU | PIP_GPU | PIP_DARWIN_GPU | PIP_LINUX_GPU | PIP_WIN32_GPU =>
      true
  | _ => false
  end.

(** * Facts about dicts *)

Module DictFacts.
Import Dict.

Lemma mem_In (d : t) (k : string) : mem k d = true <-> In k (keys d).
Proof.
  unfold mem. induction d as [|[k' v] r IH]; simpl.
  - split; [discriminate | tauto].
  - destruct (String.eqb_spec k k') as [->|Hne].
    + split; auto.
    + rewrite IH. split; [tauto | intros [E|H]; [congruence | exact H]].
Qed.

Lemma mem_false (d : t) (k : string) : mem k d = false <-> ~ In k (keys d).
Proof.
  rewrite <- mem_In. destruct (mem k d); split; congruence.
Qed.

Lemma get_setitem_same (d : t) (k v : string) : get (setitem d k v) k = Some v.
Proof.
  induction d as [|[k' v'] r IH]; simpl.
  - now rewrite String.eqb_refl.
  - destruct (String.eqb k k') eqn:E; simpl; rewrite E; auto.
Qed.

Lemma get_setitem_other (d : t) (k v x : string) :
  x <> k -> get (setitem d k v) x = get d x.
Proof.
  intros Hne. induction d as [|[k' v'] r IH]; simpl.
  - apply String.eqb_neq in Hne. now rewrite Hne.
  - destruct (String.eqb_spec k k') as [->|Hk]; simpl.
    + apply String.eqb_neq in Hne. now rewrite Hne.
    + now rewrite IH.
Qed.

Lemma get_setitem (d : t) (k v x : string) :
  get (setitem d k v) x = if String.eqb x k then Some v else get d x.
Proof.
  destruct (String.eqb_spec x k) as [->|Hne].
  - apply get_setitem_same.
  - now apply get_setitem_other.
Qed.

Lemma setitem_setitem (d : t) (k v v' : string) :
  setitem (setitem d k v) k v' = setitem d k v'.
Proof.
  induction d as [|[k' w] r IH]; simpl.
  - now rewrite String.eqb_refl.
  - destruct (String.eqb k k') eqn:E; simpl; rewrite E; congruence.
Qed.

Lemma keys_setitem (d : t) (k v : string) :
  keys (setitem d k v) = if mem k d then keys d else (keys d ++ [k])%list.
Proof.
  unfold mem. induction d as [|[k' w] r IH]; simpl; auto.
  destruct (String.eqb k k') eqn:E; simpl; auto.
  rewrite IH. now destruct (get r k).
Qed.

Lemma mem_setitem (d : t) (k v x : string) :
  mem x (setitem d k v) = String.eqb x k || mem x d.
Proof.
  unfold mem. rewrite get_setitem. now destruct (String.eqb x k).
Qed.

Lemma wf_setitem (d : t) (k v : string) : wf d -> wf (setitem d k v).
Proof.
  unfold wf. intros H. rewrite keys_setitem.
  destruct (mem k d) eqn:E; auto.
  apply mem_false in E.
  apply NoDup_app; auto.
  - repeat constructor. simpl. tauto.
  - intros x Hx [<-|[]]. contradiction.
Qed.

Lemma update_cons (d o : t) (k v : string) :
  update d ((k, v) :: o) = update (setitem d k v) o.
Proof. reflexivity. Qed.

Lemma get_update (o d : t) (x : string) :
  get (update d o) x =
  match get_last o x with Some v => Some v | None => get d x end.
Proof.
  revert d. induction o as [|[k v] o IH]; intros d; [reflexivity|].
  rewrite update_cons, IH, get_setitem. simpl.
  destruct (get_last o x); [reflexivity|].
  now destruct (String.eqb x k).
Qed.

Lemma get_last_In (o : t) (x : string) :
  (exists v, get_last o x = Some v) <-> In x (keys o).
Proof.
  induction o as [|[k v] o IH]; simpl.
  - split; [intros [v H]; discriminate | tauto].
  - destruct (get_last o x) as [v'|] eqn:E.
    + split; [intros _; right; apply IH; eauto | eauto].
    + destruct (String.eqb_spec x k) as [->|Hne].
      * split; eauto.
      * split; [intros [w H]; discriminate|].
        intros [H|H]; [congruence|].
        apply IH in H. destruct H. discriminate.
Qed.

Lemma get_last_None (o : t) (x : string) :
  get_last o x = None <-> ~ In x (keys o).
Proof.
  rewrite <- get_last_In. split.
  - intros H [v Hv]. congruence.
  - intros H. destruct (get_last o x); auto. exfalso. eauto.
Qed.

(** In a dict, which holds each key once, the last value is the value. *)
Lemma get_last_wf (o : t) (x : string) : wf o -> get_last o x = get o x.
Proof.
  unfold wf. induction o as [|[k v] o IH]; simpl; auto.
  intros H. inversion H as [|? ? Hk Ho]; subst.
  rewrite (IH Ho).
  destruct (String.eqb_spec x k) as [->|Hne].
  - apply mem_false in Hk. unfold mem in Hk.
    now destruct (get o k).
  - now destruct (get o x).
Qed.

Lemma mem_update (o d : t) (x : string) :
  mem x (update d o) = mem x d || mem x o.
Proof.
  unfold mem at 1. rewrite get_update.
  destruct (get_last o x) as [v|] eqn:E.
  - assert (H : mem x o = true) by (apply mem_In, get_last_In; eauto).
    rewrite H. now rewrite orb_true_r.
  - apply get_last_None, mem_false in E.
    rewrite E, orb_false_r. reflexivity.
Qed.

Lemma wf_update (o d : t) : wf d -> wf (update d o).
Proof.
  revert d. induction o as [|[k v] o IH]; intros d H; [exact H|].
  rewrite update_cons. apply IH. now apply wf_setitem.
Qed.

Lemma filter_fresh_setitem (d : t) (k v : string) (l : list string) :
  (mem k d = true \/ ~ In k l) ->
  filter (fun x => negb (mem x (setitem d k v))) l =
  filter (fun x => negb (mem x d)) l.
Proof.
  intros H. apply filter_ext_in. intros x Hx.
  rewrite mem_setitem.
  destruct (String.eqb_spec x k) as [->|Hne]; simpl; auto.
  destruct H as [H|H]; [now rewrite H | contradiction].
Qed.

(** New keys are appended after the keys already there, in the overlay's
    order; keys already there keep their place. *)
Lemma keys_update (o d : t) :
  wf o -> keys (update d o) = (keys d ++ fresh_keys d o)%list.
Proof.
  unfold wf, fresh_keys. revert d.
  induction o as [|[k v] o IH]; intros d H.
  - simpl. now rewrite app_nil_r.
  - inversion H as [|? ? Hk Ho]; subst.
    rewrite update_cons, (IH _ Ho), keys_setitem. simpl.
    destruct (mem k d) eqn:E; simpl.
    + now rewrite filter_fresh_setitem by auto.
    + rewrite filter_fresh_setitem by auto.
      now rewrite <- app_assoc.
Qed.

(** An overlay whose keys are all present adds no key. *)
Lemma keys_update_present (o d : t) :
  (forall x, In x (keys o) -> mem x d = true) ->
  keys (update d o) = keys d.
Proof.
  revert d. induction o as [|[k v] o IH]; intros d H; [reflexivity|].
  rewrite update_cons, IH.
  - rewrite keys_setitem, (H k); simpl; auto.
  - intros x Hx. rewrite mem_setitem, (H x); simpl; auto.
    apply orb_true_r.
Qed.

(** Two dicts with the same keys in the same order and the same value at
    each key are the same dict. *)
Lemma dict_ext (d1 d2 : t) :
  wf d1 -> keys d1 = keys d2 -> (forall x, get d1 x = get d2 x) -> d1 = d2.
Proof.
  unfold wf. revert d2.
  induction d1 as [|[k v] r IH]; intros [|[k' v'] r'] Hwf Hk Hg;
    simpl in *; try discriminate; auto.
  injection Hk as -> Hk.
  inversion Hwf as [|? ? Hnin Hr]; subst.
  pose proof (Hg k') as Hv. rewrite String.eqb_refl in Hv.
  injection Hv as ->.
  f_equal. apply IH; auto.
  intros x. specialize (Hg x).
  destruct (String.eqb x k') eqn:E; auto.
  apply String.eqb_eq in E. subst x.
  assert (Hnin' : ~ In k' (keys r')) by now rewrite <- Hk.
  apply mem_false in Hnin, Hnin'. unfold mem in Hnin, Hnin'.
  destruct (get r k'), (get r' k'); congruence.
Qed.

(** Merging the same two overlays a second time changes nothing. *)
Lemma update_twice_absorb (d a b : t) :
  wf d ->
  update (update (update (update d a) b) a) b = update (update d a) b.
Proof.
  intros Hwf.
  assert (Hab : forall x, In x (keys a) \/ In x (keys b) ->
                          mem x (update (update d a) b) = true).
  { intros x Hx. rewrite !mem_update.
    destruct Hx as [Hx|Hx]; apply mem_In in Hx; rewrite Hx;
      rewrite ?orb_true_r; reflexivity. }
  apply dict_ext.
  - now repeat apply wf_update.
  - rewrite keys_update_present.
    + apply keys_update_present. auto.
    + intros x Hx. rewrite mem_update, (Hab x); auto.
  - intros x. rewrite !get_update.
    destruct (get_last b x), (get_last a x); reflexivity.
Qed.

Lemma update_idem (d a : t) : wf d -> update (update d a) a = update d a.
Proof.
  intros Hwf. exact (update_twice_absorb d [] a Hwf).
Qed.

Lemma update_nil (d : t) : update d [] = d.
Proof. reflexivity. Qed.

End DictFacts.

(** * Facts about strings *)

Lemma append_nil_r (s : string) : s ++ "" = s.
Proof. induction s; simpl; congruence. Qed.

Lemma append_assoc (a b c : string) : (a ++ b) ++ c = a ++ (b ++ c).
Proof. induction a; simpl; congruence. Qed.

Lemma cat_app (l1 l2 : list string) : cat (l1 ++ l2) = cat l1 ++ cat l2.
Proof.
  induction l1 as [|x r IH]; simpl; auto.
  now rewrite IH, append_assoc.
Qed.

Lemma split_not_nil (sep : ascii) (s : string) : split sep s <> [].
Proof.
  destruct s as [|c r]; simpl; [discriminate|].
  destruct (Ascii.eqb c sep); [discriminate|].
  destruct (split sep r); discriminate.
Qed.

(** The lines [split] returns are the lines of the text: joined again by
    the separator they give the text back. *)
Lemma concat_split (sep : ascii) (s : string) :
  String.concat (String sep "") (split sep s) = s.
Proof.
  induction s as [|c r IH]; simpl; auto.
  pose proof (split_not_nil sep r) as Hne.
  destruct (Ascii.eqb_spec c sep) as [->|Hc].
  - destruct (split sep r) as [|h t]; [congruence|].
    simpl in *. now rewrite IH.
  - destruct (split sep r) as [|h t]; [congruence|].
    destruct t as [|h' t']; simpl in *; now rewrite <- IH.
Qed.

(** No line [split] returns holds the separator. *)
Lemma split_no_sep (sep : ascii) (s l : string) :
  In l (split sep s) -> forall n, String.get n l <> Some sep.
Proof.
  revert l. induction s as [|c r IH]; simpl; intros l Hl n.
  - destruct Hl as [<-|[]]. now destruct n.
  - destruct (Ascii.eqb_spec c sep) as [->|Hc].
    + destruct Hl as [<-|Hl]; [now destruct n | now apply IH].
    + pose proof (split_not_nil sep r) as Hne.
      destruct (split sep r) as [|h t]; [congruence|].
      destruct Hl as [<-|Hl].
      * destruct n as [|n]; simpl; [congruence|].
        apply IH. now left.
      * apply IH. now right.
Qed.

(** * Running the statements *)

Lemma bind_assoc {A B C : Type} (c : M A) (k1 : A -> M B) (k2 : B -> M C)
      (w : world) :
  bind (bind c k1) k2 w = bind c (fun a => bind (k1 a) k2) w.
Proof.
  unfold bind. destruct (c w) as [[a|e] w1]; reflexivity.
Qed.

Lemma bind_ext {A B : Type} (c : M A) (k k' : A -> M B) (w : world) :
  (forall a w', k a w' = k' a w') -> bind c k w = bind c k' w.
Proof.
  intros H. unfold bind. destruct (c w) as [[a|e] w1]; auto.
Qed.

Lemma bind_head {A B : Type} (c c' : M A) (k : A -> M B) (w : world) :
  c w = c' w -> bind c k w = bind c' k w.
Proof. intros H. unfold bind. now rewrite H. Qed.

Lemma emit_for {A : Type} (l : list A) (g : A -> string) (f : string)
      (w : world) :
  for_ l (fun x => write f (g x)) w = emit f (map g l) w.
Proof.
  unfold emit. revert w. induction l as [|x r IH]; intros w; simpl; auto.
  unfold bind. destruct (write f (g x) w) as [[u|e] w1]; auto.
Qed.

Lemma emit_app (f : string) (a b : list string) (w : world) :
  emit f (a ++ b) w = bind (emit f a) (fun _ => emit f b) w.
Proof.
  unfold emit. revert w. induction a as [|c r IH]; intros w; simpl.
  - reflexivity.
  - rewrite bind_assoc. apply bind_ext. intros _ w'. apply IH.
Qed.

(** Writing changes neither the dicts, nor what has been printed, nor the
    host. *)
Lemma emit_frame (f : string) (chunks : list string) (w : world) :
  globals (snd (emit f chunks w)) = globals w /\
  stdout (snd (emit f chunks w)) = stdout w /\
  os (snd (emit f chunks w)) = os w.
Proof.
  unfold emit. revert w. induction chunks as [|c r IH]; intros w; simpl.
  - auto.
  - unfold bind. destruct (write f c w) as [[u|e] w1] eqn:E;
      unfold write in E; destruct (encodable (os w) c);
      inversion E; subst; simpl; auto.
    match goal with |- context [for_ r (write f) ?w1] =>
      destruct (IH w1) as (Hg & Hs & Ho) end.
    simpl in *. auto.
Qed.

Lemma emit_run (chunks : list string) (G : gname -> dict)
      (fs : list (string * string)) (S : list string) (H : host)
      (f t : string) :
  emit f chunks (mkWorld G (Dict.setitem fs f t) S H) =
  (match first_bad (encodable H) chunks with
   | None => Ok tt
   | Some c => Raise (UnicodeEncodeError c)
   end,
   mkWorld G (Dict.setitem fs f (t ++ cat (take_good (encodable H) chunks)))
           S H).
Proof.
  unfold emit. revert t. induction chunks as [|c r IH]; intros t; simpl.
  - now rewrite append_nil_r.
  - unfold bind, write at 1, content. simpl.
    destruct (encodable H c).
    + rewrite DictFacts.get_setitem_same, DictFacts.setitem_setitem.
      rewrite IH. simpl. now rewrite append_assoc.
    + simpl. now rewrite append_nil_r.
Qed.

Lemma start_for {A B : Type} (l : list A) (g : A -> string) (f : string)
      (k : unit -> M B) (w : world) :
  bind (for_ l (fun x => write f (g x))) k w = bind (emit f (map g l)) k w.
Proof. apply bind_head, emit_for. Qed.

Lemma merge_for {A B : Type} (a : list string) (l : list A)
      (g : A -> string) (f : string) (k : unit -> M B) (w : world) :
  bind (emit f a) (fun _ => bind (for_ l (fun x => write f (g x))) k) w =
  bind (emit f (a ++ map g l)) k w.
Proof.
  transitivity (bind (bind (emit f a) (fun _ => emit f (map g l))) k w).
  - rewrite bind_assoc. apply bind_ext. intros _ w'. apply start_for.
  - apply bind_head. symmetry. apply emit_app.
Qed.

Lemma merge_write {B : Type} (a : list string) (s f : string)
      (k : unit -> M B) (w : world) :
  bind (emit f a) (fun _ => bind (write f s) k) w =
  bind (emit f (a ++ [s])) k w.
Proof.
  transitivity (bind (bind (emit f a) (fun _ => emit f [s])) k w).
  - rewrite bind_assoc. apply bind_ext. intros _ w'.
    apply bind_head. unfold emit. simpl. unfold bind, ret.
    destruct (write f s w') as [[[]|e] w2]; auto.
  - apply bind_head. symmetry. apply emit_app.
Qed.

Lemma merge_values {B : Type} (a : list string) (f : string) (x : gname)
      (k : list string -> M B) (w : world) :
  bind (emit f a) (fun _ => bind (values x) k) w =
  bind (emit f a) (fun _ => k (Dict.values (globals w x))) w.
Proof.
  unfold bind. destruct (emit_frame f a w) as (Hg & _).
  destruct (emit f a w) as [[u|e] w1]; auto.
  unfold values. simpl in *. now rewrite Hg.
Qed.

Lemma cat_manifest_chunks (env : string) (cs ps : list string) :
  cat (manifest_chunks env cs ps) = manifest_layout env cs ps.
Proof.
  unfold manifest_chunks, manifest_layout, CHANNELS. cbv zeta beta.
  rewrite !cat_app. cbn [cat map].
  rewrite ?append_nil_r, !append_assoc.
  reflexivity.
Qed.

(** The part of the script that writes the file and prints, run on tables
    that are already merged. *)
Lemma write_yaml_run (env : string) (G G0 : gname -> dict)
      (fs : list (string * string)) (S : list string) (H : host) :
  (f <- open_w (format [Field; Lit ".yaml"] env) ;;
   for_ (split newline (format HELP_MSG env))
        (fun line => write f (format [Lit "# "; Field; Lit nl] line)) ;;
   write f (format [Lit "name: "; Field; Lit nl] env) ;;
   write f ("channels:" ++ nl) ;;
   for_ CHANNELS
        (fun channel => write f (format [Lit "- "; Field; Lit nl] channel)) ;;
   write f ("dependencies:" ++ nl) ;;
   conda_values <- values CONDA_BASE ;;
   for_ conda_values
        (fun conda_package =>
           write f (format [Lit "- "; Field; Lit nl] conda_package)) ;;
   write f ("- pip:" ++ nl) ;;
   pip_values <- values PIP_BASE ;;
   for_ pip_values
        (fun pip_package =>
           write f (format [Lit "  - "; Field; Lit nl] pip_package)) ;;
   print (format [Lit "Generated conda file: "; Field]
                 (format [Field; Lit ".yaml"] env)) ;;
   print (format HELP_MSG env)) (mkWorld G fs S H)
  = finish env G (mkWorld G0 fs S H).
Proof.
  change (format [Field; Lit ".yaml"] env) with (env ++ ".yaml").
  change (format [Lit "Generated conda file: "; Field] (env ++ ".yaml"))
    with ("Generated conda file: " ++ (env ++ ".yaml") ++ "").
  rewrite append_nil_r.
  unfold finish. cbn [os files stdout].
  unfold bind at 1. unfold open_w. cbn [os files stdout globals].
  destruct (locate H (env ++ ".yaml")) as [id|]; [|reflexivity].
  rewrite start_for.
  repeat first [ rewrite merge_write
               | rewrite merge_for
               | rewrite merge_values; cbv beta; cbn [globals] ].
  match goal with
  | |- bind (emit id ?c) _ _ = _ =>
      replace c with (manifest_chunks env (Dict.values (G CONDA_BASE))
                                      (Dict.values (G PIP_BASE)))
        by (unfold manifest_chunks, usage_lines; cbv zeta beta;
            rewrite <- !app_assoc; reflexivity)
  end.
  unfold bind at 1. rewrite emit_run.
  destruct (first_bad (encodable H) _); [reflexivity|].
  unfold bind, print. cbn [os files stdout globals].
  destruct (printable H ("Generated conda file: " ++ env ++ ".yaml"));
    cbn [os files stdout globals]; [|reflexivity].
  destruct (printable H (format HELP_MSG env));
    cbn [os files stdout globals]; [|reflexivity].
  now rewrite <- app_assoc.
Qed.

Lemma family_of_supported (platform : string) :
  platform_supported platform = true <-> exists f, family_of platform = Some f.
Proof.
  unfold platform_supported, family_of.
  destruct (String.eqb platform "darwin"); simpl; [split; eauto|].
  destruct (String.prefix "linux" platform); simpl; [split; eauto|].
  destruct (String.eqb platform "win32"); simpl; [split; eauto|].
  split; [discriminate | intros [f H]; discriminate].
Qed.

Lemma family_of_unsupported (platform : string) :
  platform_supported platform = false <-> family_of platform = None.
Proof.
  unfold platform_supported, family_of.
  destruct (String.eqb platform "darwin"); simpl; [split; discriminate|].
  destruct (String.prefix "linux" platform); simpl; [split; discriminate|].
  destruct (String.eqb platform "win32"); simpl; [split; discriminate|].
  split; reflexivity.
Qed.

Lemma bind_update {B : Type} (a b : gname) (k : unit -> M B) (w : world) :
  bind (update a b) k w =
  k tt (mkWorld (fun g => if gname_eqb g a
                          then Dict.update (globals w a) (globals w b)
                          else globals w g)
                (files w) (stdout w) (os w)).
Proof. reflexivity. Qed.

Lemma bind_ret {A B : Type} (a : A) (k : A -> M B) (w : world) :
  bind (ret a) k w = k a w.
Proof. reflexivity. Qed.

(** What a run on a supported platform does, in full: it merges the
    tables, then writes and prints as far as the host lets it. *)
Lemma main_run (args : Namespace) (platform : string) (f : family)
      (w : world) :
  family_of platform = Some f ->
  exists G',
    (forall x, G' x = merged_globals f (gpu args) (globals w) x) /\
    main args platform w = finish (resolved_name args) G' w.
Proof.
  intros Hf. destruct args as [n a]. destruct w as [G fs S H].
  unfold family_of in Hf. unfold main. cbv zeta.
  destruct (String.eqb platform "darwin");
    [|destruct (String.prefix "linux" platform);
      [|destruct (String.eqb platform "win32"); [|discriminate]]];
    injection Hf as <-; destruct a;
    repeat (cbv beta iota;
            first [rewrite bind_update | rewrite bind_ret
                  | rewrite bind_assoc];
            cbn [globals files stdout os gpu name]);
    (eexists; split; [|apply write_yaml_run]);
    intros x; destruct x; reflexivity.
Qed.

(** What a run on any other platform does: it stops at the platform check,
    before anything has been changed. *)
Lemma main_unsupported (args : Namespace) (platform : string) (w : world) :
  family_of platform = None ->
  main args platform w = (Raise UnsupportedPlatformError, w).
Proof.
  unfold family_of, main. intros Hf.
  destruct (String.eqb platform "darwin"); [discriminate|].
  destruct (String.prefix "linux" platform); [discriminate|].
  destruct (String.eqb platform "win32"); [discriminate|].
  reflexivity.
Qed.

Lemma first_bad_forallb (enc : string -> bool) (l : list string) :
  first_bad enc l = None <-> forallb enc l = true.
Proof.
  induction l as [|c r IH]; simpl; [tauto|].
  destruct (enc c); simpl; [exact IH | split; discriminate].
Qed.

Lemma take_good_all (enc : string -> bool) (l : list string) :
  first_bad enc l = None -> take_good enc l = l.
Proof.
  induction l as [|c r IH]; simpl; auto.
  destruct (enc c); [intros H; now rewrite IH | discriminate].
Qed.

(** How [finish] ends well, and only so. *)
Lemma finish_ok (env : string) (G : gname -> dict) (w w' : world) :
  finish env G w = (Ok tt, w') <->
  exists id,
    locate (os w) (env ++ ".yaml") = Some id /\
    forallb (encodable (os w))
            (manifest_chunks env (Dict.values (G CONDA_BASE))
                             (Dict.values (G PIP_BASE))) = true /\
    printable (os w) ("Generated conda file: " ++ env ++ ".yaml") = true /\
    printable (os w) (format HELP_MSG env) = true /\
    w' = mkWorld G
                 (Dict.setitem (files w) id
                    (manifest_layout env (Dict.values (G CONDA_BASE))
                                     (Dict.values (G PIP_BASE))))
                 (stdout w ++ [ "Generated conda file: " ++ env ++ ".yaml";
                                format HELP_MSG env ])
                 (os w).
Proof.
  unfold finish. cbv zeta. split.
  - destruct (locate (os w) (env ++ ".yaml")) as [id|]; [|discriminate].
    destruct (first_bad (encodable (os w)) _) as [c|] eqn:Hb; [discriminate|].
    destruct (printable (os w) ("Generated conda file: " ++ env ++ ".yaml"));
      [|discriminate].
    destruct (printable (os w) (format HELP_MSG env)); [|discriminate].
    intros Heq. apply (f_equal snd) in Heq. cbn [snd] in Heq. subst w'.
    exists id.
    rewrite (take_good_all _ _ Hb), cat_manifest_chunks.
    apply first_bad_forallb in Hb. auto.
  - intros (id & Hl & Hb & Hp1 & Hp2 & ->).
    apply first_bad_forallb in Hb.
    rewrite Hl, Hb, Hp1, Hp2, (take_good_all _ _ Hb), cat_manifest_chunks.
    reflexivity.
Qed.

(** Whatever the outcome, [finish] leaves the merged tables and the
    host. *)
Lemma finish_frame (env : string) (G : gname -> dict) (w : world) :
  globals (snd (finish env G w)) = G /\ os (snd (finish env G w)) = os w.
Proof.
  unfold finish. cbv zeta.
  destruct (locate (os w) (env ++ ".yaml")); [|auto].
  destruct (first_bad (encodable (os w)) _); [auto|].
  destruct (printable (os w) ("Generated conda file: " ++ env ++ ".yaml"));
    [|auto].
  destruct (printable (os w) (format HELP_MSG env)); auto.
Qed.

Lemma main_ok_family (args : Namespace) (platform : string) (w w' : world) :
  main args platform w = (Ok tt, w') ->
  exists f, family_of platform = Some f.
Proof.
  intros Hm. destruct (family_of platform) as [f|] eqn:Hf; eauto.
  rewrite (main_unsupported args platform w Hf) in Hm. discriminate.
Qed.

(** The tables after a run on a supported platform, however it ends. *)
Lemma main_tables (args : Namespace) (platform : string) (f : family)
      (w w' : world) (r : result unit) :
  family_of platform = Some f ->
  main args platform w = (r, w') ->
  (forall x, globals w' x = merged_globals f (gpu args) (globals w) x) /\
  os w' = os w.
Proof.
  intros Hf Hm. destruct (main_run args platform f w Hf) as (G' & Hg & Hrun).
  rewrite Hrun in Hm.
  destruct (finish_frame (resolved_name args) G' w) as (H1 & H2).
  rewrite Hm in H1, H2. simpl in H1, H2. subst G'. auto.
Qed.

(** A run that ends well, in full. *)
Lemma main_result (args : Namespace) (platform : string) (f : family)
      (w w' : world) :
  family_of platform = Some f ->
  main args platform w = (Ok tt, w') ->
  (forall x, globals w' x = merged_globals f (gpu args) (globals w) x) /\
  os w' = os w /\
  stdout w' = (stdout w ++ printed args)%list /\
  exists id,
    locate (os w) (output_name args) = Some id /\
    files w' = Dict.setitem (files w) id (manifest args f (globals w)).
Proof.
  intros Hf Hm. destruct (main_run args platform f w Hf) as (G' & Hg & Hrun).
  rewrite Hrun in Hm. apply finish_ok in Hm.
  destruct Hm as (id & Hl & _ & _ & _ & ->). simpl.
  repeat split; auto.
  exists id. split; [exact Hl|].
  unfold manifest. now rewrite (Hg CONDA_BASE), (Hg PIP_BASE).
Qed.

(** The run completes when the host accepts the path and the texts. *)
Lemma main_completes (args : Namespace) (platform : string) (w : world) :
  can_complete args platform w = true ->
  exists w', main args platform w = (Ok tt, w').
Proof.
  unfold can_complete. intros H.
  destruct (family_of platform) as [f|] eqn:Hf; [|discriminate].
  destruct (main_run args platform f w Hf) as (G' & Hg & Hrun).
  destruct (locate (os w) (resolved_name args ++ ".yaml")) as [id|] eqn:Hl;
    [|discriminate].
  apply andb_true_iff in H. destruct H as [H Hp2].
  apply andb_true_iff in H. destruct H as [Hb Hp1].
  eexists. rewrite Hrun. apply finish_ok. exists id.
  rewrite (Hg CONDA_BASE), (Hg PIP_BASE). simpl. auto.
Qed.

(** * Chains of merges *)

Lemma wfb_wf (d : dict) : Dict.wfb d = true -> Dict.wf d.
Proof.
  unfold Dict.wf. induction d as [|[k v] r IH]; simpl; intros H.
  - constructor.
  - apply andb_true_iff in H. destruct H as [Hk Hr].
    constructor; auto.
    apply DictFacts.mem_false. now apply negb_true_iff.
Qed.

Lemma get_None_mem (d : dict) (k : string) :
  Dict.get d k = None <-> Dict.mem k d = false.
Proof. unfold Dict.mem. destruct (Dict.get d k); split; congruence. Qed.

Lemma wf_chain (os : list dict) (d : dict) :
  Dict.wf d -> Dict.wf (fold_left Dict.update os d).
Proof.
  revert d. induction os as [|o r IH]; intros d H; simpl; auto.
  apply IH. now apply DictFacts.wf_update.
Qed.

Lemma keys_chain (os : list dict) (d : dict) :
  Forall Dict.wf os ->
  Dict.keys (fold_left Dict.update os d) = (Dict.keys d ++ fresh_all d os)%list.
Proof.
  revert d. induction os as [|o r IH]; intros d H; simpl.
  - now rewrite app_nil_r.
  - inversion H as [|? ? Ho Hr]; subst.
    rewrite (IH _ Hr), DictFacts.keys_update by exact Ho.
    now rewrite app_assoc.
Qed.

Lemma get_chain (os : list dict) (d : dict) (k : string) :
  Forall Dict.wf os ->
  Dict.get (fold_left Dict.update os d) k =
  match chain_get os k with Some v => Some v | None => Dict.get d k end.
Proof.
  revert d. induction os as [|o r IH]; intros d H; simpl; auto.
  inversion H as [|? ? Ho Hr]; subst.
  rewrite (IH _ Hr), DictFacts.get_update, (DictFacts.get_last_wf o k Ho).
  now destruct (chain_get r k).
Qed.

Lemma chain_get_app (pre post : list dict) (k : string) :
  chain_get (pre ++ post) k =
  match chain_get post k with Some v => Some v | None => chain_get pre k end.
Proof.
  induction pre as [|o r IH]; simpl.
  - now destruct (chain_get post k).
  - rewrite IH. now destruct (chain_get post k).
Qed.

Lemma chain_get_none (os : list dict) (k : string) :
  (forall o, In o os -> Dict.get o k = None) -> chain_get os k = None.
Proof.
  induction os as [|o r IH]; simpl; intros H; auto.
  rewrite IH by auto. auto.
Qed.

(** * The store of a run *)

Lemma fresh_wf : globals_wf (globals fresh).
Proof. intros x. apply wfb_wf. destruct x; reflexivity. Qed.

Lemma merged_wf (f : family) (accel : bool) (g : gname -> dict) :
  globals_wf g -> globals_wf (merged_globals f accel g).
Proof.
  intros H x. destruct x; simpl; auto.
  - apply wf_chain, H.
  - unfold merged_pip. destruct accel; repeat apply DictFacts.wf_update; apply H.
  - apply DictFacts.wf_update, H.
Qed.

(** Each base table ends as the chain of its overlays merged into what it
    was, the overlays taken as they are when the run ends. *)
Lemma merged_is_chain (f : family) (accel : bool) (g : gname -> dict)
      (b : gname) :
  b = CONDA_BASE \/ b = PIP_BASE ->
  merged_globals f accel g b =
  fold_left Dict.update
            (map (merged_globals f accel g) (merged_into f accel b)) (g b).
Proof.
  intros [->| ->]; destruct f, accel; reflexivity.
Qed.

(** * Helper facts for the merge statements *)

(** The value of the last overlay of a chain that has the key is the value
    the merged table has. *)
Lemma get_chain_last (pre post : list dict) (o d : dict) (k v : string) :
  Forall Dict.wf (pre ++ o :: post) ->
  Dict.get o k = Some v ->
  (forall o', In o' post -> Dict.get o' k = None) ->
  Dict.get (fold_left Dict.update (pre ++ o :: post) d) k = Some v.
Proof.
  intros Hwf Ho Hpost.
  rewrite get_chain by exact Hwf.
  rewrite chain_get_app. simpl.
  now rewrite (chain_get_none post k Hpost), Ho.
Qed.

Lemma merged_conda_ext (f : family) (a : bool) (g g' : gname -> dict) :
  (forall x, g x = g' x) -> merged_conda f a g = merged_conda f a g'.
Proof.
  intros H. unfold merged_conda.
  destruct f, a; simpl; now rewrite ?H.
Qed.

Lemma merged_pip_ext (f : family) (a : bool) (g g' : gname -> dict) :
  (forall x, g x = g' x) -> merged_pip f a g = merged_pip f a g'.
Proof.
  intros H. unfold merged_pip, merged_pip_gpu.
  destruct f, a; simpl; now rewrite ?H.
Qed.

(** Merging again, from the tables a run has left, gives the same
    tables. *)
Lemma merged_conda_again (f : family) (a : bool) (g : gname -> dict) :
  globals_wf g ->
  merged_conda f a (merged_globals f a g) = merged_conda f a g.
Proof.
  intros H. pose proof (H CONDA_BASE) as Hc.
  destruct f, a; unfold merged_conda; simpl; unfold merged_conda; simpl;
    auto using DictFacts.update_idem, DictFacts.update_twice_absorb.
Qed.

Lemma merged_pip_again (f : family) (a : bool) (g : gname -> dict) :
  globals_wf g ->
  merged_pip f a (merged_globals f a g) = merged_pip f a g.
Proof.
  intros H. pose proof (H PIP_BASE) as Hp. pose proof (H PIP_GPU) as Hg.
  destruct f, a; unfold merged_pip, merged_pip_gpu; simpl;
    unfold merged_pip, merged_pip_gpu; simpl;
    rewrite ?(DictFacts.update_idem _ _ Hg);
    auto using DictFacts.update_idem, DictFacts.update_twice_absorb.
Qed.

Lemma manifest_again (args : Namespace) (f : family) (g g' : gname -> dict) :
  globals_wf g ->
  (forall x, g' x = merged_globals f (gpu args) g x) ->
  manifest args f g' = manifest args f g.
Proof.
  intros Hwf H. unfold manifest.
  rewrite (merged_conda_ext f (gpu args) g' _ H).
  rewrite (merged_pip_ext f (gpu args) g' _ H).
  now rewrite merged_conda_again, merged_pip_again.
Qed.

(** In the tables a run leaves, however it ends, a key has the value of
    the last merged overlay that has it. *)
Lemma last_in_chain
      (args : Namespace) (platform : string) (f : family) (w w' : world)
      (r : result unit)
      (b : gname) (pre post : list gname) (o : gname) (k v : string) :
  family_of platform = Some f ->
  globals_wf (globals w) ->
  main args platform w = (r, w') ->
  b = CONDA_BASE \/ b = PIP_BASE ->
  merged_into f (gpu args) b = (pre ++ o :: post)%list ->
  Dict.get (globals w' o) k = Some v ->
  (forall o', In o' post -> Dict.get (globals w' o') k = None) ->
  Dict.get (globals w' b) k = Some v.
Proof.
  intros Hf Hwf Hm Hb Hsplit Ho Hpost.
  destruct (main_tables _ _ _ _ _ _ Hf Hm) as (Hg & _).
  rewrite (Hg b), (merged_is_chain f (gpu args) (globals w) b Hb).
  rewrite Hsplit, map_app. simpl map.
  apply get_chain_last.
  - change (Forall Dict.wf
              (map (merged_globals f (gpu args) (globals w)) pre
               ++ map (merged_globals f (gpu args) (globals w))
                      (o :: post))%list).
    rewrite <- map_app.
    apply Forall_forall. intros d Hd.
    apply in_map_iff in Hd. destruct Hd as (x & <- & _).
    now apply merged_wf.
  - now rewrite <- (Hg o).
  - intros d Hd. apply in_map_iff in Hd. destruct Hd as (x & <- & Hx).
    rewrite <- (Hg x). now apply Hpost.
Qed.

Lemma get_In_values (d : dict) (k v : string) :
  Dict.get d k = Some v -> In v (Dict.values d).
Proof.
  induction d as [|[k' v'] r IH]; simpl; [discriminate|].
  destruct (String.eqb k k'); [intros [= ->]; now left | right; auto].
Qed.

Lemma finish_not_exception (env msg : string) (G : gname -> dict)
      (w : world) :
  fst (finish env G w) <> Raise (Exception msg).
Proof.
  unfold finish. cbv zeta.
  destruct (locate (os w) (env ++ ".yaml")); [|discriminate].
  destruct (first_bad (encodable (os w)) _); [discriminate|].
  destruct (printable (os w) ("Generated conda file: " ++ env ++ ".yaml"));
    [|discriminate].
  destruct (printable (os w) (format HELP_MSG env)); discriminate.
Qed.

(** The file a run that ends well has written, read back by its path. *)
Lemma main_written (args : Namespace) (platform : string) (w w' : world) :
  main args platform w = (Ok tt, w') ->
  read_file w' (resolved_name args ++ ".yaml") =
  Some (manifest_layout (resolved_name args)
                        (Dict.values (globals w' CONDA_BASE))
                        (Dict.values (globals w' PIP_BASE))).
Proof.
  intros Hm. destruct (main_ok_family _ _ _ _ Hm) as [f Hf].
  destruct (main_result _ _ _ _ _ Hf Hm) as (Hg & Ho & _ & id & Hl & Hfiles).
  unfold read_file. rewrite Ho. unfold output_name, extension in Hl.
  rewrite Hl, Hfiles, (Hg CONDA_BASE), (Hg PIP_BASE).
  apply DictFacts.get_setitem_same.
Qed.

(** On the dicts as loaded the merged tables are those of [module_dicts]. *)
Lemma loaded_tables (f : family) (accel : bool) (w : world) :
  loaded w ->
  merged_conda f accel (globals w) = merged_conda f accel module_dicts /\
  merged_pip f accel (globals w) = merged_pip f accel module_dicts.
Proof.
  intros H. split.
  - now apply merged_conda_ext.
  - now apply merged_pip_ext.
Qed.

Lemma loaded_fresh : loaded fresh.
Proof. intros x. reflexivity. Qed.

(** * The statements of the specification *)




(** C2. On a platform outside the three families ([darwin], a name that
    starts with [linux], [win32]) the run raises the unsupported-platform
    exception and leaves the world as it was: no file is created or
    written, no table is touched.  On a platform inside them this
    exception is not raised, whatever else happens, and the run ends
    without any exception when the host lets it open the output path and
    accepts the texts. *)
Theorem unsupported_platform (args : Namespace) (platform : string)
        (w : world) :
  if platform_supported platform
  then fst (main args platform w) <> Raise UnsupportedPlatformError /\
       (can_complete args platform w = true ->
        exists w', main args platform w = (Ok tt, w'))
  else main args platform w = (Raise UnsupportedPlatformError, w).
Proof.
  destruct (platform_supported platform) eqn:Hs.
  - apply family_of_supported in Hs. destruct Hs as [f Hf].
    destruct (main_run args platform f w Hf) as (G' & _ & Hrun).
    split.
    + rewrite Hrun. apply finish_not_exception.
    + apply main_completes.
  - apply main_unsupported. now apply family_of_unsupported.
Qed.

Lemma unsupported_platform_witness :
  can_complete (mkArgs None false) "linux" fresh = true /\
  exists w', main (mkArgs None false) "linux" fresh = (Ok tt, w').
Proof.
  split; [vm_compute; reflexivity|].
  apply (proj2 (unsupported_platform (mkArgs None false) "linux" fresh
                : _ /\ _)).
  vm_compute; reflexivity.
Defined.

(** C8. The manifest of a successful run is, in this order: each line of
    the usage instructions for the resolved name behind [# ]; the line
    [name: <name>]; the line [channels:] and the three channels
    [defaults], [conda-forge], [pytorch], each behind [- ]; the line
    [dependencies:] and one [- <specifier>] line for each value of the
    interpreter-level table, in the table's order; the line [- pip:] and
    one [  - <specifier>] line for each value of the secondary-installer
    table, in the table's order.  Every line ends with a newline.  The
    usage lines are the lines of the formatted usage text: joined by
    newlines they give it back, and none holds a newline. *)
Theorem manifest_format (args : Namespace) (platform : string)
        (w w' : world) :
  main args platform w = (Ok tt, w') ->
  read_file w' (resolved_name args ++ ".yaml") =
    Some (manifest_layout (resolved_name args)
                          (Dict.values (globals w' CONDA_BASE))
                          (Dict.values (globals w' PIP_BASE)))
  /\ String.concat nl (usage_lines (resolved_name args)) =
     format HELP_MSG (resolved_name args)
  /\ forall l n, In l (usage_lines (resolved_name args)) ->
                 String.get n l <> Some newline.
Proof.
  intros Hm. split; [|split].
  - now apply main_written with (platform := platform) (w := w).
  - apply concat_split.
  - intros l n Hl. now apply split_no_sep with (s := format HELP_MSG (resolved_name args)).
Qed.

Lemma manifest_format_witness :
  let args := mkArgs None false in
  let w' := snd (main args "darwin" fresh) in
  main args "darwin" fresh = (Ok tt, w') /\
  read_file w' "nlp_cpu.yaml" =
    Some (manifest_layout "nlp_cpu"
                          (Dict.values (globals w' CONDA_BASE))
                          (Dict.values (globals w' PIP_BASE))).
Proof.
  split; [vm_compute; reflexivity|].
  apply (proj1 (manifest_format
                  (mkArgs None false) "darwin" fresh
                  (snd (main (mkArgs None false) "darwin" fresh))
                  ltac:(vm_compute; reflexivity))).
Defined.

(** C9. On Windows with the accelerator on, from the tables as loaded, the
    interpreter-level table maps [pytorch] to the accelerator overlay's
    [pytorch>=1.0.0], not to the Windows pin [pytorch==1.0.0], and maps
    [cudatoolkit] to the Windows value [cuda90], the accelerator overlay
    having no [cudatoolkit] key.  The tables are merged before the file is
    opened, so this holds however the run ends. *)
Theorem windows_accelerator_pytorch (n : option string) (w w' : world)
        (r : result unit) :
  loaded w ->
  main (mkArgs n true) "win32" w = (r, w') ->
  Dict.get (globals w' CONDA_BASE) "pytorch" = Some "pytorch>=1.0.0" /\
  Dict.get (module_dicts CONDA_GPU) "pytorch" = Some "pytorch>=1.0.0" /\
  Dict.get (module_dicts CONDA_WIN32) "pytorch" = Some "pytorch==1.0.0" /\
  Dict.get (globals w' CONDA_BASE) "cudatoolkit" = Some "cuda90" /\
  Dict.get (module_dicts CONDA_WIN32) "cudatoolkit" = Some "cuda90" /\
  Dict.get (module_dicts CONDA_GPU) "cudatoolkit" = None.
Proof.
  intros Hl Hm.
  destruct (main_tables (mkArgs n true) "win32" Windows w w' r eq_refl Hm)
    as (Hg & _).
  rewrite (Hg CONDA_BASE). cbn [merged_globals gpu].
  rewrite (proj1 (loaded_tables Windows true w Hl)).
  repeat split; vm_compute; reflexivity.
Qed.

Lemma windows_accelerator_pytorch_witness :
  let w' := snd (main (mkArgs None true) "win32" fresh) in
  main (mkArgs None true) "win32" fresh = (Ok tt, w') /\
  Dict.get (globals w' CONDA_BASE) "pytorch" = Some "pytorch>=1.0.0" /\
  Dict.get (globals w' CONDA_BASE) "cudatoolkit" = Some "cuda90".
Proof.
  intros w'.
  assert (Hm : main (mkArgs None true) "win32" fresh = (Ok tt, w'))
    by (vm_compute; reflexivity).
  split; [exact Hm|].
  destruct (windows_accelerator_pytorch None fresh w' (Ok tt)
              ltac:(intros x; reflexivity) Hm)
    as (H1 & _ & _ & H2 & _).
  split; assumption.
Defined.

(** * The merge statements *)

(** C3, as the specification words it, fails: on Windows with the
    accelerator on, [pytorch] is in the base interpreter-level table and in
    the Windows overlay, which is merged, yet the rendered specifier is the
    accelerator overlay's, not the Windows overlay's. *)
Lemma overlay_value_rendered_fails :
  ~ overlay_value_rendered (mkArgs None true) "win32" fresh.
Proof.
  intros H.
  set (w' := snd (main (mkArgs None true) "win32" fresh)).
  assert (Hm : main (mkArgs None true) "win32" fresh = (Ok tt, w'))
    by (vm_compute; reflexivity).
  destruct (main_tables (mkArgs None true) "win32" Windows fresh w' (Ok tt)
                        eq_refl Hm) as (Hg & _).
  assert (Hbase : Dict.get (globals fresh CONDA_BASE) "pytorch"
                  = Some "pytorch-cpu>=1.0.0")
    by (vm_compute; reflexivity).
  assert (Hover : Dict.get (globals w' CONDA_WIN32) "pytorch"
                  = Some "pytorch==1.0.0")
    by (rewrite (Hg CONDA_WIN32); vm_compute; reflexivity).
  assert (Hin : In CONDA_WIN32 (merged_into Windows true CONDA_BASE))
    by (left; reflexivity).
  pose proof (H Windows w' CONDA_BASE CONDA_WIN32 "pytorch" _ _
                eq_refl Hm (or_introl eq_refl) Hin Hbase Hover) as Hc.
  rewrite (Hg CONDA_BASE) in Hc. vm_compute in Hc. discriminate.
Qed.

(** C3, amended.  For every overlay merged into a base table during the
    run and every key the overlay has, the table the manifest is rendered
    from maps the key to the overlay's value, unless an overlay merged
    later has the key too: the value of the last merged overlay that has
    the key is the one rendered, never the base's. *)
Theorem last_overlay_value_rendered
        (args : Namespace) (platform : string) (f : family) (w w' : world)
        (b : gname) (pre post : list gname) (o : gname) (k v : string) :
  family_of platform = Some f ->
  globals_wf (globals w) ->
  main args platform w = (Ok tt, w') ->
  b = CONDA_BASE \/ b = PIP_BASE ->
  merged_into f (gpu args) b = (pre ++ o :: post)%list ->
  Dict.get (globals w' o) k = Some v ->
  (forall o', In o' post -> Dict.get (globals w' o') k = None) ->
  Dict.get (globals w' b) k = Some v /\
  In v (Dict.values (globals w' b)).
Proof.
  intros Hf Hwf Hm Hb Hsplit Ho Hpost.
  assert (Hget : Dict.get (globals w' b) k = Some v)
    by now apply (last_in_chain args platform f w w' (Ok tt)
                                b pre post o k v).
  split; [exact Hget | now apply get_In_values with (k := k)].
Qed.

Lemma last_overlay_value_rendered_witness :
  let args := mkArgs None true in
  let w' := snd (main args "win32" fresh) in
  Dict.get (globals w' CONDA_BASE) "pytorch" = Some "pytorch>=1.0.0" /\
  In "pytorch>=1.0.0" (Dict.values (globals w' CONDA_BASE)).
Proof.
  apply (last_overlay_value_rendered
           (mkArgs None true) "win32" Windows fresh
           (snd (main (mkArgs None true) "win32" fresh))
           CONDA_BASE [CONDA_WIN32] [] CONDA_GPU "pytorch" "pytorch>=1.0.0").
  - reflexivity.
  - intros x. apply wfb_wf. destruct x; reflexivity.
  - vm_compute; reflexivity.
  - left; reflexivity.
  - reflexivity.
  - vm_compute; reflexivity.
  - intros o' [].
Defined.

(** C4.  In a run that completes, each base table ends as the chain of its
    overlays merged into it, the platform overlay before the accelerator
    overlay.  Its keys are the keys it had, at their places, followed by
    the new keys in the order the overlays bring them; a key of some
    overlay has the value of the last overlay that has it, every other key
    the value it had.  The dependency lists of the manifest are the values
    of these tables, in that order. *)
Theorem merge_order (args : Namespace) (platform : string) (f : family)
        (w w' : world) :
  family_of platform = Some f ->
  globals_wf (globals w) ->
  main args platform w = (Ok tt, w') ->
  merged_into f (gpu args) CONDA_BASE =
    (match conda_platform_overlay f with Some o => [o] | None => [] end
     ++ (if gpu args then [CONDA_GPU] else []))%list /\
  merged_into f (gpu args) PIP_BASE =
    ([pip_platform_overlay f]
     ++ (if gpu args then [PIP_GPU] else []))%list /\
  (forall b,
      b = CONDA_BASE \/ b = PIP_BASE ->
      let os := map (globals w') (merged_into f (gpu args) b) in
      globals w' b = fold_left Dict.update os (globals w b) /\
      Dict.keys (globals w' b) =
        (Dict.keys (globals w b) ++ fresh_all (globals w b) os)%list /\
      forall k,
        Dict.get (globals w' b) k =
        match chain_get os k with
        | Some v => Some v
        | None => Dict.get (globals w b) k
        end) /\
  read_file w' (resolved_name args ++ ".yaml") =
    Some (manifest_layout (resolved_name args)
                          (Dict.values (globals w' CONDA_BASE))
                          (Dict.values (globals w' PIP_BASE))).
Proof.
  intros Hf Hwf Hm.
  destruct (main_tables _ _ _ _ _ _ Hf Hm) as (Hg & _).
  split; [reflexivity|]. split; [reflexivity|]. split.
  - intros b Hb os.
    assert (Hos : os = map (merged_globals f (gpu args) (globals w))
                           (merged_into f (gpu args) b)).
    { apply map_ext. exact Hg. }
    assert (Hwfs : Forall Dict.wf os).
    { rewrite Hos. apply Forall_forall. intros d Hd.
      apply in_map_iff in Hd. destruct Hd as (x & <- & _).
      now apply merged_wf. }
    assert (Hchain : globals w' b = fold_left Dict.update os (globals w b)).
    { rewrite (Hg b), Hos. now apply merged_is_chain. }
    split; [exact Hchain|]. rewrite Hchain. split.
    + now apply keys_chain.
    + intros k. now apply get_chain.
  - now apply main_written with (platform := platform) (w := w).
Qed.

Lemma merge_order_witness :
  let w' := snd (main (mkArgs None true) "win32" fresh) in
  main (mkArgs None true) "win32" fresh = (Ok tt, w') /\
  Dict.keys (globals w' CONDA_BASE) =
    (Dict.keys (module_dicts CONDA_BASE) ++ ["cudatoolkit"; "numba"])%list.
Proof.
  intros w'.
  assert (Hm : main (mkArgs None true) "win32" fresh = (Ok tt, w'))
    by (vm_compute; reflexivity).
  split; [exact Hm|].
  destruct (merge_order (mkArgs None true) "win32" Windows fresh w' eq_refl
                        ltac:(intros x; apply wfb_wf; destruct x; reflexivity)
                        Hm)
    as (_ & _ & Hb & _).
  destruct (Hb CONDA_BASE (or_introl eq_refl)) as (_ & Hk & _).
  rewrite Hk. vm_compute. reflexivity.
Defined.

(** * The baseline tables *)

(** C5, as the specification words it, fails: on Windows with the
    accelerator off, the run merges the Windows overlay into the
    interpreter-level table, which does not stay as it was. *)
Lemma only_linux_merges_conda_fails : ~ only_linux_merges_conda fresh.
Proof.
  intros H.
  set (w' := snd (main (mkArgs None false) "win32" fresh)).
  assert (Hm : main (mkArgs None false) "win32" fresh = (Ok tt, w'))
    by (vm_compute; reflexivity).
  pose proof (H None "win32" Windows w' eq_refl Hm) as Hc.
  vm_compute in Hc. discriminate.
Qed.

(** C5, amended.  From the tables as loaded and with the accelerator off,
    the mac family is the only one whose run merges no platform entry into
    the interpreter-level table.  A Linux run merges the Linux overlay,
    which appends [cudatoolkit>=9.2]; a Windows run merges the Windows
    overlay, which pins [pytorch==1.0.0] at the place of [pytorch] and
    appends [cuda90] under the key [cudatoolkit]. *)
Theorem platform_conda_overlays (n : option string) (platform : string)
        (f : family) (w w' : world) :
  loaded w ->
  family_of platform = Some f ->
  main (mkArgs n false) platform w = (Ok tt, w') ->
  globals w' CONDA_BASE =
  match f with
  | Darwin => module_dicts CONDA_BASE
  | Linux =>
      (module_dicts CONDA_BASE ++ [("cudatoolkit", "cudatoolkit>=9.2")])%list
  | Windows =>
      (Dict.setitem (module_dicts CONDA_BASE) "pytorch" "pytorch==1.0.0"
       ++ [("cudatoolkit", "cuda90")])%list
  end.
Proof.
  intros Hl Hf Hm.
  destruct (main_tables _ _ _ _ _ _ Hf Hm) as (Hg & _).
  rewrite (Hg CONDA_BASE). cbn [merged_globals gpu].
  rewrite (proj1 (loaded_tables f false w Hl)).
  destruct f; vm_compute; reflexivity.
Qed.

Lemma platform_conda_overlays_witness :
  globals (snd (main (mkArgs None false) "win32" fresh)) CONDA_BASE =
  (Dict.setitem (module_dicts CONDA_BASE) "pytorch" "pytorch==1.0.0"
   ++ [("cudatoolkit", "cuda90")])%list.
Proof.
  apply (platform_conda_overlays
           None "win32" Windows fresh
           (snd (main (mkArgs None false) "win32" fresh))).
  - intros x; reflexivity.
  - reflexivity.
  - vm_compute; reflexivity.
Defined.

(** C6, as the specification words it, fails: on Linux with the
    accelerator off the GPU-toolkit key [cudatoolkit] is not absent from
    the interpreter-level table; it is the entry the Linux overlay
    brings. *)
Lemma linux_example_fails : ~ linux_example fresh.
Proof.
  intros [H _].
  set (w' := snd (main (mkArgs None false) "linux" fresh)).
  assert (Hm : main (mkArgs None false) "linux" fresh = (Ok tt, w'))
    by (vm_compute; reflexivity).
  destruct (H None w' Hm) as (_ & _ & Hc).
  vm_compute in Hc. discriminate.
Qed.

(** C6, amended.  On Linux, from the tables as loaded: with the
    accelerator off the secondary-installer table has no [horovod] entry
    and the interpreter-level table has the entry of the Linux overlay,
    which is the GPU-toolkit key [cudatoolkit] itself, present with
    [cudatoolkit>=9.2]; with the accelerator on the interpreter-level table
    has every entry of the accelerator overlay and the secondary-installer
    table has the [horovod] entry.  The tables are merged before the file
    is opened, so this holds however the run ends. *)
Theorem linux_tables (n : option string) (platform : string) (w : world) :
  loaded w ->
  family_of platform = Some Linux ->
  (forall r w',
      main (mkArgs n false) platform w = (r, w') ->
      Dict.get (globals w' PIP_BASE) "horovod" = None /\
      In ("cudatoolkit", "cudatoolkit>=9.2") (module_dicts CONDA_LINUX) /\
      Dict.get (globals w' CONDA_BASE) "cudatoolkit"
        = Some "cudatoolkit>=9.2")
  /\
  (forall r w',
      main (mkArgs n true) platform w = (r, w') ->
      (forall k v, In (k, v) (module_dicts CONDA_GPU) ->
                   Dict.get (globals w' CONDA_BASE) k = Some v) /\
      Dict.get (globals w' PIP_BASE) "horovod" = Some "horovod>=0.16.1").
Proof.
  intros Hl Hf. split; intros r w' Hm;
    destruct (main_tables _ _ _ _ _ _ Hf Hm) as (Hg & _);
    rewrite (Hg PIP_BASE), (Hg CONDA_BASE);
    cbn [merged_globals gpu];
    rewrite (proj1 (loaded_tables Linux _ w Hl)),
            (proj2 (loaded_tables Linux _ w Hl)).
  - repeat split; try (vm_compute; reflexivity).
    left; reflexivity.
  - split; [|vm_compute; reflexivity].
    intros k v Hin. simpl in Hin.
    destruct Hin as [E|[E|[E|[]]]]; injection E as <- <-;
      vm_compute; reflexivity.
Qed.

Lemma linux_tables_witness :
  let w' := snd (main (mkArgs None false) "linux2" fresh) in
  Dict.get (globals w' PIP_BASE) "horovod" = None /\
  In ("cudatoolkit", "cudatoolkit>=9.2") (module_dicts CONDA_LINUX) /\
  Dict.get (globals w' CONDA_BASE) "cudatoolkit" = Some "cudatoolkit>=9.2".
Proof.
  apply (proj1 (linux_tables None "linux2" fresh
                             ltac:(intros x; reflexivity)
                             ltac:(vm_compute; reflexivity))
               (fst (main (mkArgs None false) "linux2" fresh))).
  vm_compute; reflexivity.
Defined.

(** * Repeated runs and the shared tables *)

Lemma main_ok_can_complete (args : Namespace) (platform : string)
      (w w' : world) :
  main args platform w = (Ok tt, w') -> can_complete args platform w = true.
Proof.
  intros Hm. destruct (main_ok_family _ _ _ _ Hm) as [f Hf].
  destruct (main_run args platform f w Hf) as (G' & Hg & Hrun).
  rewrite Hrun in Hm. apply finish_ok in Hm.
  destruct Hm as (id & Hl & Hb & Hp1 & Hp2 & _).
  unfold can_complete. rewrite Hf, Hl.
  rewrite (Hg CONDA_BASE), (Hg PIP_BASE) in Hb. cbn [merged_globals] in Hb.
  now rewrite Hb, Hp1, Hp2.
Qed.

(** A second run with the same arguments merges into the same tables. *)
Lemma rerun_tables (args : Namespace) (f : family) (g g1 : gname -> dict) :
  globals_wf g ->
  (forall x, g1 x = merged_globals f (gpu args) g x) ->
  merged_conda f (gpu args) g1 = merged_conda f (gpu args) g /\
  merged_pip f (gpu args) g1 = merged_pip f (gpu args) g.
Proof.
  intros Hwf H. split.
  - rewrite (merged_conda_ext f (gpu args) g1 _ H).
    now apply merged_conda_again.
  - rewrite (merged_pip_ext f (gpu args) g1 _ H).
    now apply merged_pip_again.
Qed.

(** C7.  Two runs with the same arguments on the same platform, one after
    the other in the same process, the second starting from the tables the
    first has left, write the same manifest text: when the first run
    completes, so does the second, and the file holds the same text after
    both. *)
Theorem generation_repeatable (args : Namespace) (platform : string)
        (w w1 : world) :
  globals_wf (globals w) ->
  main args platform w = (Ok tt, w1) ->
  exists w2 text,
    main args platform w1 = (Ok tt, w2) /\
    read_file w1 (resolved_name args ++ ".yaml") = Some text /\
    read_file w2 (resolved_name args ++ ".yaml") = Some text.
Proof.
  intros Hwf Hm1. destruct (main_ok_family _ _ _ _ Hm1) as [f Hf].
  destruct (main_tables _ _ _ _ _ _ Hf Hm1) as (Hg1 & Ho1).
  destruct (rerun_tables args f (globals w) (globals w1) Hwf Hg1)
    as (Hc & Hp).
  assert (Hcan : can_complete args platform w1 = true).
  { pose proof (main_ok_can_complete _ _ _ _ Hm1) as H.
    unfold can_complete in *. rewrite Hf in *.
    now rewrite Ho1, Hc, Hp. }
  destruct (main_completes _ _ _ Hcan) as [w2 Hm2].
  destruct (main_tables _ _ _ _ _ _ Hf Hm2) as (Hg2 & _).
  exists w2. eexists. split; [exact Hm2|]. split.
  - now apply main_written with (platform := platform) (w := w).
  - rewrite (main_written _ _ _ _ Hm2).
    rewrite (Hg2 CONDA_BASE), (Hg2 PIP_BASE), (Hg1 CONDA_BASE), (Hg1 PIP_BASE).
    cbn [merged_globals]. now rewrite Hc, Hp.
Qed.

Lemma generation_repeatable_witness :
  let w1 := snd (main (mkArgs None true) "linux" fresh) in
  exists w2 text,
    main (mkArgs None true) "linux" w1 = (Ok tt, w2) /\
    read_file w1 "nlp_gpu.yaml" = Some text /\
    read_file w2 "nlp_gpu.yaml" = Some text.
Proof.
  apply (generation_repeatable (mkArgs None true) "linux" fresh
                               (snd (main (mkArgs None true) "linux" fresh))).
  - intros x. apply wfb_wf. destruct x; reflexivity.
  - vm_compute; reflexivity.
Defined.

(** C10.  The merges change the module-level dicts themselves.  After a
    run that completes, [CONDA_BASE] and [PIP_BASE] are the tables with the
    overlays merged in, the very tables the manifest lists: they have each
    key of each merged overlay, with the value of the last overlay that
    has it; [PIP_GPU] has the entries of the platform's accelerator
    overlay; the other dicts are as they were.  A run does not in general
    leave the base tables as they were: from the tables as loaded, a Linux
    run changes [CONDA_BASE]. *)
Theorem tables_changed_in_place :
  (forall (args : Namespace) (platform : string) (f : family)
          (w w' : world),
      family_of platform = Some f ->
      globals_wf (globals w) ->
      main args platform w = (Ok tt, w') ->
      (forall b, b = CONDA_BASE \/ b = PIP_BASE ->
         globals w' b =
           fold_left Dict.update
                     (map (globals w') (merged_into f (gpu args) b))
                     (globals w b) /\
         (forall o k, In o (merged_into f (gpu args) b) ->
                      Dict.mem k (globals w' o) = true ->
                      Dict.mem k (globals w' b) = true) /\
         (forall pre o post k v,
             merged_into f (gpu args) b = (pre ++ o :: post)%list ->
             Dict.get (globals w' o) k = Some v ->
             (forall o', In o' post -> Dict.get (globals w' o') k = None) ->
             Dict.get (globals w' b) k = Some v)) /\
      globals w' PIP_GPU =
        Dict.update (globals w PIP_GPU)
                    (globals w (pip_gpu_platform_overlay f)) /\
      (forall k v,
          Dict.get (globals w (pip_gpu_platform_overlay f)) k = Some v ->
          Dict.get (globals w' PIP_GPU) k = Some v) /\
      (forall x, x <> CONDA_BASE -> x <> PIP_BASE -> x <> PIP_GPU ->
                 globals w' x = globals w x) /\
      read_file w' (resolved_name args ++ ".yaml") =
        Some (manifest_layout (resolved_name args)
                              (Dict.values (globals w' CONDA_BASE))
                              (Dict.values (globals w' PIP_BASE))))
  /\
  ~ (forall (args : Namespace) (platform : string) (w w' : world),
        main args platform w = (Ok tt, w') ->
        globals w' CONDA_BASE = globals w CONDA_BASE /\
        globals w' PIP_BASE = globals w PIP_BASE).
Proof.
  split.
  - intros args platform f w w' Hf Hwf Hm.
    destruct (main_tables _ _ _ _ _ _ Hf Hm) as (Hg & _).
    assert (Hwf' : globals_wf (globals w')).
    { intros x. rewrite (Hg x). now apply merged_wf. }
    split; [|split; [|split; [|split]]].
    + intros b Hb.
      assert (Hchain : globals w' b =
                fold_left Dict.update
                          (map (globals w') (merged_into f (gpu args) b))
                          (globals w b)).
      { rewrite (map_ext _ _ Hg), (Hg b). now apply merged_is_chain. }
      assert (Hlast : forall pre o post k v,
                 merged_into f (gpu args) b = (pre ++ o :: post)%list ->
                 Dict.get (globals w' o) k = Some v ->
                 (forall o', In o' post ->
                             Dict.get (globals w' o') k = None) ->
                 Dict.get (globals w' b) k = Some v).
      { intros pre o post k v Hsplit Ho Hpost.
        now apply (last_in_chain args platform f w w' (Ok tt)
                                 b pre post o k v). }
      split; [exact Hchain|]. split; [|exact Hlast].
      intros o k Hin Hmem.
      rewrite Hchain. clear Hchain Hlast.
      revert Hin. generalize (globals w b).
      induction (merged_into f (gpu args) b) as [|o' r IH];
        intros d Hin; simpl in *; [contradiction|].
      destruct Hin as [->|Hin].
      * clear IH. assert (Hd : Dict.mem k (Dict.update d (globals w' o)) = true)
          by (rewrite DictFacts.mem_update, Hmem; apply orb_true_r).
        revert Hd. generalize (Dict.update d (globals w' o)).
        induction r as [|o2 r2 IH2]; intros d2 Hd2; simpl; auto.
        apply IH2. rewrite DictFacts.mem_update, Hd2. reflexivity.
      * now apply IH.
    + rewrite (Hg PIP_GPU). reflexivity.
    + intros k v Hk. rewrite (Hg PIP_GPU). simpl. unfold merged_pip_gpu.
      rewrite DictFacts.get_update, DictFacts.get_last_wf by apply Hwf.
      now rewrite Hk.
    + intros x H1 H2 H3. rewrite (Hg x). destruct x; simpl; congruence.
    + now apply main_written with (platform := platform) (w := w).
  - intros H.
    set (w' := snd (main (mkArgs None false) "linux" fresh)).
    assert (Hm : main (mkArgs None false) "linux" fresh = (Ok tt, w'))
      by (vm_compute; reflexivity).
    destruct (H _ _ _ _ Hm) as (Hc & _).
    vm_compute in Hc. discriminate.
Qed.

Lemma tables_changed_in_place_witness :
  let w' := snd (main (mkArgs None true) "linux" fresh) in
  globals w' PIP_GPU = [("horovod", "horovod>=0.16.1")] /\
  Dict.get (globals w' PIP_BASE) "horovod" = Some "horovod>=0.16.1".
Proof.
  intros w'.
  destruct (proj1 tables_changed_in_place
                  (mkArgs None true) "linux" Linux fresh w' eq_refl
                  ltac:(intros x; apply wfb_wf; destruct x; reflexivity)
                  ltac:(vm_compute; reflexivity))
    as (Hb & Hgpu & _).
  split; [rewrite Hgpu; vm_compute; reflexivity|].
  destruct (Hb PIP_BASE (or_intror eq_refl)) as (_ & _ & Hlast).
  apply (Hlast [PIP_LINUX] PIP_GPU []).
  - reflexivity.
  - rewrite Hgpu. vm_compute; reflexivity.
  - intros o' [].
Defined.

(** * Further properties of the script *)

(** ** The platform check *)

(** The run looks at the platform name only to choose a family: two names
    of the same family, such as [linux] and [linux2], or two unsupported
    names, give the same run. *)
Theorem main_platform_family (args : Namespace) (p p' : string) (w : world) :
  family_of p = family_of p' ->
  main args p w = main args p' w.
Proof.
  unfold family_of, main. intros H.
  destruct (String.eqb p "darwin"), (String.eqb p' "darwin"),
           (String.prefix "linux" p), (String.prefix "linux" p'),
           (String.eqb p "win32"), (String.eqb p' "win32");
    try discriminate; reflexivity.
Qed.

Lemma main_platform_family_witness :
  main (mkArgs None false) "linux2" fresh
  = main (mkArgs None false) "linux" fresh.
Proof.
  apply (main_platform_family (mkArgs None false) "linux2" "linux" fresh).
  vm_compute; reflexivity.
Defined.

(** ** What is printed and which files are touched *)

(** A successful run prints two things after what was printed before: the
    name of the file it has written, and the usage text for the resolved
    name.  The usage text printed is the text whose lines the manifest
    carries as comments. *)
Theorem prints_summary (args : Namespace) (platform : string)
        (w w' : world) :
  main args platform w = (Ok tt, w') ->
  stdout w' =
    (stdout w
     ++ [ ("Generated conda file: " ++ resolved_name args ++ ".yaml")%string;
          String.concat nl (usage_lines (resolved_name args)) ])%list.
Proof.
  intros Hm. destruct (main_ok_family _ _ _ _ Hm) as [f Hf].
  destruct (main_result _ _ _ _ _ Hf Hm) as (_ & _ & Hout & _).
  rewrite Hout. unfold printed, usage_lines.
  now rewrite (concat_split newline).
Qed.

Lemma prints_summary_witness :
  stdout (snd (main (mkArgs (Some "e") false) "darwin" fresh)) =
    [ "Generated conda file: e.yaml";
      String.concat nl (usage_lines "e") ].
Proof.
  apply (prints_summary (mkArgs (Some "e") false) "darwin" fresh
                        (snd (main (mkArgs (Some "e") false) "darwin" fresh))).
  vm_compute; reflexivity.
Defined.

Lemma finish_files (env : string) (G : gname -> dict) (w : world) :
  match locate (os w) (env ++ ".yaml") with
  | None => files (snd (finish env G w)) = files w
  | Some id =>
      exists text, files (snd (finish env G w)) = Dict.setitem (files w) id text
  end.
Proof.
  unfold finish. cbv zeta.
  destruct (locate (os w) (env ++ ".yaml")); [|reflexivity].
  destruct (first_bad (encodable (os w)) _); [eexists; reflexivity|].
  destruct (printable (os w) ("Generated conda file: " ++ env ++ ".yaml"));
    [|eexists; reflexivity].
  destruct (printable (os w) (format HELP_MSG env)); eexists; reflexivity.
Qed.

(** However the run ends, it touches at most one file, the one the output
    path denotes: every other file keeps its content and no other file
    appears, also when another path of the directory denotes the same
    file.  The output file is overwritten, not appended to: when the run
    completes, what the file held before does not show in the text, which
    the arguments, the platform and the tables decide. *)
Theorem only_output_file_written (args : Namespace) (platform : string)
        (w w' : world) (r : result unit) :
  main args platform w = (r, w') ->
  (forall id,
      locate (os w) (resolved_name args ++ ".yaml") <> Some id ->
      Dict.get (files w') id = Dict.get (files w) id) /\
  (r = Ok tt ->
   forall v v',
     (forall x, globals v x = globals w x) ->
     main args platform v = (Ok tt, v') ->
     read_file v' (resolved_name args ++ ".yaml")
     = read_file w' (resolved_name args ++ ".yaml")).
Proof.
  intros Hm. split.
  - intros id Hid. destruct (family_of platform) as [f|] eqn:Hf.
    + destruct (main_run args platform f w Hf) as (G' & _ & Hrun).
      rewrite Hrun in Hm.
      pose proof (finish_files (resolved_name args) G' w) as Hfs.
      rewrite Hm in Hfs. cbn [snd] in Hfs.
      destruct (locate (os w) (resolved_name args ++ ".yaml")) as [id0|].
      * destruct Hfs as [text ->].
        apply DictFacts.get_setitem_other. congruence.
      * now rewrite Hfs.
    + rewrite (main_unsupported args platform w Hf) in Hm.
      now injection Hm as _ <-.
  - intros -> v v' Hv Hm'.
    rewrite (main_written _ _ _ _ Hm), (main_written _ _ _ _ Hm').
    destruct (main_ok_family _ _ _ _ Hm) as [f Hf].
    destruct (main_tables _ _ _ _ _ _ Hf Hm) as (Hg & _).
    destruct (main_tables _ _ _ _ _ _ Hf Hm') as (Hg' & _).
    rewrite (Hg CONDA_BASE), (Hg PIP_BASE), (Hg' CONDA_BASE), (Hg' PIP_BASE).
    cbn [merged_globals].
    now rewrite (merged_conda_ext f (gpu args) _ _ Hv),
                (merged_pip_ext f (gpu args) _ _ Hv).
Qed.

Lemma only_output_file_written_witness :
  let w := mkWorld module_dicts
                   [("notes.txt", "keep"); ("nlp_cpu.yaml", "old")] []
                   flat_ascii_host in
  let w' := snd (main (mkArgs (Some "./nlp_cpu") false) "darwin" w) in
  Dict.get (files w') "notes.txt" = Some "keep" /\
  Dict.keys (files w') = ["notes.txt"; "nlp_cpu.yaml"].
Proof.
  intros w w'.
  destruct (only_output_file_written
              (mkArgs (Some "./nlp_cpu") false) "darwin" w w' (Ok tt)
              ltac:(vm_compute; reflexivity)) as (Hother & _).
  split.
  - rewrite (Hother "notes.txt") by (vm_compute; discriminate).
    reflexivity.
  - vm_compute; reflexivity.
Defined.

(** How a run on a supported platform fails.  When the output path cannot
    be opened the run raises at [open], after the tables have been merged:
    no file is touched and nothing is printed.  When the encoding of the
    file rejects a text, the run raises at that [write] and the file keeps
    the texts written before it, the rejected one and the rest missing;
    nothing is printed. *)
Theorem failed_run_outcomes (args : Namespace) (platform : string)
        (f : family) (w : world) :
  family_of platform = Some f ->
  let path := resolved_name args ++ ".yaml" in
  let chunks :=
    manifest_chunks (resolved_name args)
                    (Dict.values (merged_conda f (gpu args) (globals w)))
                    (Dict.values (merged_pip f (gpu args) (globals w))) in
  (locate (os w) path = None ->
   exists w',
     main args platform w = (Raise (OSError path), w') /\
     files w' = files w /\
     stdout w' = stdout w /\
     forall x, globals w' x = merged_globals f (gpu args) (globals w) x)
  /\
  (forall id c,
      locate (os w) path = Some id ->
      first_bad (encodable (os w)) chunks = Some c ->
      exists w',
        main args platform w = (Raise (UnicodeEncodeError c), w') /\
        read_file w' path
        = Some (cat (take_good (encodable (os w)) chunks)) /\
        stdout w' = stdout w).
Proof.
  intros Hf path chunks.
  destruct (main_run args platform f w Hf) as (G' & Hg & Hrun).
  rewrite Hrun. unfold finish. cbv zeta. fold path.
  rewrite (Hg CONDA_BASE), (Hg PIP_BASE). cbn [merged_globals]. fold chunks.
  split.
  - intros Hl. rewrite Hl. eexists. split; [reflexivity|]. simpl. auto.
  - intros id c Hl Hb. rewrite Hl, Hb. eexists. split; [reflexivity|].
    unfold read_file. simpl. rewrite Hl.
    split; [apply DictFacts.get_setitem_same | reflexivity].
Qed.

Lemma failed_run_outcomes_witness :
  (exists w',
      main (mkArgs (Some "a/b") false) "linux" fresh
      = (Raise (OSError "a/b.yaml"), w') /\
      files w' = [] /\ stdout w' = []) /\
  (exists w',
      main (mkArgs (Some (String "233"%char "")) false) "linux" fresh
      = (Raise (UnicodeEncodeError
                  ("# $ conda env create -f "
                   ++ String "233"%char ".yaml" ++ nl)), w') /\
      read_file w' (String "233"%char ".yaml")
      = Some ("# " ++ nl ++ "# To create the conda environment:" ++ nl)).
Proof.
  split.
  - destruct (proj1 (failed_run_outcomes
                       (mkArgs (Some "a/b") false) "linux" Linux fresh eq_refl)
                    ltac:(vm_compute; reflexivity))
      as (w' & Hm & Hfs & Hout & _).
    exists w'. auto.
  - destruct (proj2 (failed_run_outcomes
                       (mkArgs (Some (String "233"%char "")) false)
                       "linux" Linux fresh eq_refl)
                    (String "233"%char ".yaml")
                    ("# $ conda env create -f "
                     ++ String "233"%char ".yaml" ++ nl)
                    ltac:(vm_compute; reflexivity)
                    ltac:(vm_compute; reflexivity))
      as (w' & Hm & Hread & _).
    exists w'. split; [exact Hm|].
    refine (eq_trans Hread _). vm_compute. reflexivity.
Defined.

(** ** Invariants of the tables *)

(** Whatever the outcome of the run, dicts that hold each key once still do
    afterwards: a merge assigns to a key that is there or appends one that
    is not.  The dependency lists of the manifest thus have one line for
    each key. *)
Theorem main_preserves_wf (args : Namespace) (platform : string)
        (w w' : world) (r : result unit) :
  globals_wf (globals w) ->
  main args platform w = (r, w') ->
  globals_wf (globals w') /\
  length (Dict.values (globals w' CONDA_BASE))
  = length (Dict.keys (globals w' CONDA_BASE)) /\
  length (Dict.values (globals w' PIP_BASE))
  = length (Dict.keys (globals w' PIP_BASE)).
Proof.
  intros Hwf Hm. split.
  - destruct (family_of platform) as [f|] eqn:Hf.
    + destruct (main_tables _ _ _ _ _ _ Hf Hm) as (Hg & _).
      intros x. rewrite (Hg x). now apply merged_wf.
    + rewrite (main_unsupported args platform w Hf) in Hm.
      now injection Hm as _ <-.
  - unfold Dict.values, Dict.keys. now rewrite !length_map.
Qed.

Lemma main_preserves_wf_witness :
  globals_wf (globals (snd (main (mkArgs None true) "win32" fresh))).
Proof.
  apply (main_preserves_wf (mkArgs None true) "win32" fresh
                           (snd (main (mkArgs None true) "win32" fresh))
                           (Ok tt)).
  - intros x. apply wfb_wf. destruct x; reflexivity.
  - vm_compute; reflexivity.
Defined.

(** The accelerator entries outlive the run that merged them.  When a run
    with the accelerator on is followed, in the same process, by a run with
    it off, the second manifest still lists the accelerator specifier of
    every key that the platform overlay does not assign: the base tables
    were changed in place and nothing resets them. *)
Theorem accelerator_entries_persist
        (n n' : option string) (platform : string) (f : family)
        (w w1 w2 : world) :
  family_of platform = Some f ->
  globals_wf (globals w) ->
  main (mkArgs n true) platform w = (Ok tt, w1) ->
  main (mkArgs n' false) platform w1 = (Ok tt, w2) ->
  forall k v,
    Dict.get (globals w CONDA_GPU) k = Some v ->
    (forall o, conda_platform_overlay f = Some o ->
               Dict.get (globals w o) k = None) ->
    Dict.get (globals w2 CONDA_BASE) k = Some v /\
    In v (Dict.values (globals w2 CONDA_BASE)).
Proof.
  intros Hf Hwf Hm1 Hm2.
  destruct (main_tables _ _ _ _ _ _ Hf Hm1) as (Hg1 & _).
  destruct (main_tables _ _ _ _ _ _ Hf Hm2) as (Hg2 & _).
  cbn [gpu] in Hg1, Hg2.
  intros k v Hk Hplat.
  assert (Hget : Dict.get (globals w2 CONDA_BASE) k = Some v).
  { rewrite (Hg2 CONDA_BASE). simpl.
    rewrite (merged_conda_ext f false _ _ Hg1).
    unfold merged_conda at 1.
    assert (H1 : Dict.get (merged_conda f true (globals w)) k = Some v).
    { unfold merged_conda.
      destruct f; simpl;
        rewrite ?DictFacts.get_update,
                !(DictFacts.get_last_wf _ k (Hwf _)), ?Hk; reflexivity. }
    destruct f; simpl; auto;
      rewrite DictFacts.get_update, (DictFacts.get_last_wf _ k (Hwf _)).
    - now rewrite (Hplat CONDA_LINUX eq_refl).
    - now rewrite (Hplat CONDA_WIN32 eq_refl). }
  split; [exact Hget | now apply get_In_values with (k := k)].
Qed.

Lemma accelerator_entries_persist_witness :
  let w1 := snd (main (mkArgs None true) "linux" fresh) in
  exists w2,
    main (mkArgs None true) "linux" fresh = (Ok tt, w1) /\
    main (mkArgs None false) "linux" w1 = (Ok tt, w2) /\
    Dict.get (globals w2 CONDA_BASE) "tensorflow"
    = Some "tensorflow-gpu==1.12.0".
Proof.
  intros w1.
  assert (H1 : main (mkArgs None true) "linux" fresh = (Ok tt, w1))
    by (vm_compute; reflexivity).
  destruct (main_completes (mkArgs None false) "linux" w1
                           ltac:(vm_compute; reflexivity)) as [w2 H2].
  exists w2. split; [exact H1|]. split; [exact H2|].
  apply (accelerator_entries_persist
           None None "linux" Linux fresh w1 w2 eq_refl
           ltac:(intros x; apply wfb_wf; destruct x; reflexivity)
           H1 H2 "tensorflow" "tensorflow-gpu==1.12.0").
  - vm_compute; reflexivity.
  - intros o [= <-]. vm_compute; reflexivity.
Defined.

(** With the accelerator off, the manifest and the two base tables do not
    depend on what the accelerator dicts hold: two stores that differ in
    them only give the same manifest text. *)
Theorem cpu_manifest_ignores_accelerator_tables
        (n : option string) (platform : string) (w v w' v' : world) :
  (forall x, accelerator_table x = false -> globals w x = globals v x) ->
  main (mkArgs n false) platform w = (Ok tt, w') ->
  main (mkArgs n false) platform v = (Ok tt, v') ->
  globals w' CONDA_BASE = globals v' CONDA_BASE /\
  globals w' PIP_BASE = globals v' PIP_BASE /\
  read_file w' (resolved_name (mkArgs n false) ++ ".yaml")
  = read_file v' (resolved_name (mkArgs n false) ++ ".yaml").
Proof.
  intros Hagree Hw Hv. destruct (main_ok_family _ _ _ _ Hw) as [f Hf].
  destruct (main_tables _ _ _ _ _ _ Hf Hw) as (Hgw & _).
  destruct (main_tables _ _ _ _ _ _ Hf Hv) as (Hgv & _).
  cbn [gpu] in Hgw, Hgv.
  assert (Hc : merged_conda f false (globals w)
               = merged_conda f false (globals v)).
  { unfold merged_conda. destruct f; simpl;
      rewrite ?(Hagree CONDA_BASE eq_refl), ?(Hagree CONDA_LINUX eq_refl),
              ?(Hagree CONDA_WIN32 eq_refl); reflexivity. }
  assert (Hp : merged_pip f false (globals w)
               = merged_pip f false (globals v)).
  { unfold merged_pip. destruct f; simpl;
      rewrite ?(Hagree PIP_BASE eq_refl), ?(Hagree PIP_DARWIN eq_refl),
              ?(Hagree PIP_LINUX eq_refl), ?(Hagree PIP_WIN32 eq_refl);
      reflexivity. }
  assert (Hcb : globals w' CONDA_BASE = globals v' CONDA_BASE)
    by (rewrite (Hgw CONDA_BASE), (Hgv CONDA_BASE); exact Hc).
  assert (Hpb : globals w' PIP_BASE = globals v' PIP_BASE)
    by (rewrite (Hgw PIP_BASE), (Hgv PIP_BASE); exact Hp).
  split; [exact Hcb|]. split; [exact Hpb|].
  rewrite (main_written _ _ _ _ Hw), (main_written _ _ _ _ Hv).
  now rewrite Hcb, Hpb.
Qed.

Lemma cpu_manifest_ignores_accelerator_tables_witness :
  let v := mkWorld (fun x => if accelerator_table x
                             then [("extra", "extra==1.0")]
                             else module_dicts x) [] [] flat_ascii_host in
  read_file (snd (main (mkArgs None false) "linux" fresh)) "nlp_cpu.yaml"
  = read_file (snd (main (mkArgs None false) "linux" v)) "nlp_cpu.yaml".
Proof.
  intros v.
  apply (cpu_manifest_ignores_accelerator_tables
           None "linux" fresh v
           (snd (main (mkArgs None false) "linux" fresh))
           (snd (main (mkArgs None false) "linux" v))).
  - intros x Hx. destruct x; try discriminate Hx; reflexivity.
  - vm_compute; reflexivity.
  - vm_compute; reflexivity.
Defined.

(** ** The usage header *)

Lemma length_split (sep : ascii) (s : string) :
  length (split sep s) = S (occurrences sep s).
Proof.
  induction s as [|c r IH]; simpl; auto.
  pose proof (split_not_nil sep r) as Hne.
  destruct (Ascii.eqb c sep); simpl.
  - now rewrite IH.
  - destruct (split sep r) as [|h t]; [congruence|]. exact IH.
Qed.

Lemma occurrences_app (c : ascii) (a b : string) :
  occurrences c (a ++ b) = occurrences c a + occurrences c b.
Proof.
  induction a as [|x r IH]; simpl; auto.
  rewrite IH. lia.
Qed.

(** Without the separator a text is one line, and a text put before the
    first line of another joins that line. *)
Lemma split_prefix (sep : ascii) (a t : string) :
  occurrences sep a = 0 ->
  split sep (a ++ t) =
  match split sep t with
  | [] => [a]
  | h :: r => (a ++ h) :: r
  end.
Proof.
  pose proof (split_not_nil sep t) as Hne.
  induction a as [|c r IH]; simpl; intros H.
  - destruct (split sep t); [congruence | reflexivity].
  - destruct (Ascii.eqb c sep); [discriminate|].
    rewrite (IH H). destruct (split sep t); [congruence | reflexivity].
Qed.

(** The header of the manifest has eleven comment lines, and five more for
    each newline in the environment name, which the usage text mentions
    five times. *)
Theorem usage_header_length (env : string) :
  length (usage_lines env) = 11 + 5 * occurrences newline env.
Proof.
  unfold usage_lines. rewrite length_split.
  unfold HELP_MSG. cbn [format].
  rewrite !occurrences_app. simpl. lia.
Qed.

(** For a name without a newline the header comments are these eleven
    lines: the usage text with the name filled in, first and last line
    empty. *)
Theorem usage_lines_of_name (env : string) :
  occurrences newline env = 0 ->
  usage_lines env =
  [ "";
    "To create the conda environment:";
    "$ conda env create -f " ++ env ++ ".yaml";
    "";
    "To update the conda environment:";
    "$ conda env update -f " ++ env ++ ".yaml";
    "";
    "To register the conda environment in Jupyter:";
    "$ conda activate " ++ env;
    "$ python -m ipykernel install --user --name " ++ env
      ++ " --display-name " ++ dquote ++ "Python (" ++ env ++ ")" ++ dquote;
    "" ].
Proof.
  intros H. unfold usage_lines, HELP_MSG. cbn [format].
  repeat (cbn [split append nl dquote newline Ascii.eqb Bool.eqb];
          rewrite ?(split_prefix newline env _ H)).
  now rewrite append_nil_r.
Qed.

Lemma usage_lines_of_name_witness :
  length (usage_lines "nlp_cpu") = 11 /\
  nth 8 (usage_lines "nlp_cpu") "" = "$ conda activate nlp_cpu".
Proof.
  rewrite (usage_lines_of_name "nlp_cpu" ltac:(vm_compute; reflexivity)).
  split; reflexivity.
Defined.

(** ** The tables of each platform, from the tables as loaded *)

(** The secondary-installer table of a first run is the base table, with
    [horovod>=0.16.1] appended exactly when the accelerator is on and the
    family is mac or Linux: Windows has no accelerator entry of its own,
    and no platform adds anything without the accelerator. *)
Theorem resolved_pip_table (n : option string) (accel : bool)
        (platform : string) (f : family) (w w' : world) :
  loaded w ->
  family_of platform = Some f ->
  main (mkArgs n accel) platform w = (Ok tt, w') ->
  globals w' PIP_BASE =
  match f, accel with
  | Darwin, true | Linux, true =>
      (module_dicts PIP_BASE ++ [("horovod", "horovod>=0.16.1")])%list
  | _, _ => module_dicts PIP_BASE
  end.
Proof.
  intros Hl Hf Hm.
  destruct (main_tables _ _ _ _ _ _ Hf Hm) as (Hg & _).
  rewrite (Hg PIP_BASE). cbn [merged_globals gpu].
  rewrite (proj2 (loaded_tables f accel w Hl)).
  destruct f, accel; vm_compute; reflexivity.
Qed.

Lemma resolved_pip_table_witness :
  globals (snd (main (mkArgs None true) "win32" fresh)) PIP_BASE
  = module_dicts PIP_BASE.
Proof.
  apply (resolved_pip_table
           None true "win32" Windows fresh
           (snd (main (mkArgs None true) "win32" fresh))).
  - intros x; reflexivity.
  - reflexivity.
  - vm_compute; reflexivity.
Defined.

(** The interpreter-level table of a first run with the accelerator on has
    the keys of the base table in their order, then [cudatoolkit] on Linux
    and Windows, then [numba]; [pytorch] and [tensorflow] stay at their
    places and carry the accelerator specifiers on every platform. *)
Theorem accelerated_conda_table (n : option string) (platform : string)
        (f : family) (w w' : world) :
  loaded w ->
  family_of platform = Some f ->
  main (mkArgs n true) platform w = (Ok tt, w') ->
  Dict.keys (globals w' CONDA_BASE) =
    (Dict.keys (module_dicts CONDA_BASE)
     ++ match f with Darwin => [] | Linux | Windows => ["cudatoolkit"] end
     ++ ["numba"])%list /\
  Dict.get (globals w' CONDA_BASE) "pytorch" = Some "pytorch>=1.0.0" /\
  Dict.get (globals w' CONDA_BASE) "tensorflow"
  = Some "tensorflow-gpu==1.12.0" /\
  Dict.get (globals w' CONDA_BASE) "numba" = Some "numba>=0.38.1".
Proof.
  intros Hl Hf Hm.
  destruct (main_tables _ _ _ _ _ _ Hf Hm) as (Hg & _).
  rewrite (Hg CONDA_BASE). cbn [merged_globals gpu].
  rewrite (proj1 (loaded_tables f true w Hl)).
  destruct f; repeat split; vm_compute; reflexivity.
Qed.

Lemma accelerated_conda_table_witness :
  Dict.get (globals (snd (main (mkArgs None true) "darwin" fresh)) CONDA_BASE)
           "numba" = Some "numba>=0.38.1".
Proof.
  apply (accelerated_conda_table
           None "darwin" Darwin fresh
           (snd (main (mkArgs None true) "darwin" fresh))).
  - intros x; reflexivity.
  - reflexivity.
  - vm_compute; reflexivity.
Defined.
